(** * go-runtime-metrics: a shallow embedding of the collector and sender core

    The development follows the Go packages of the repository:

    - [runtime]   : the part of Go's runtime API the collector reads
                    (an environment value; nothing is computed there);
    - [collector] : [Fields], [Collector], [New], [Run], [CollectStats],
                    [collectCPUStats], [collectMemStats], [Tags], [Values];
    - [influxdb]  : the pull-mode [Point] and [Metrics];
    - [runstats]  : the push sender for InfluxDB v1 ([Config], [init],
                    [newClient], [newStatsSender], [RunCollector],
                    [onNewPoint], [newBatch], [loop]);
    - [metrics]   : the push sender for InfluxDB v2.

    Go integers are [Z] with the conversions' wrap-around written out,
    Go maps are [gmap], pointers are optional heap locations, panics and
    errors are explicit results. *)

From Stdlib Require Import ZArith Lia List Bool.
From stdpp Require Import gmap strings list.

Local Open Scope Z_scope.

(** ** Machine integers and run-time faults *)

Definition wrap_unsigned (w x : Z) : Z := x mod 2 ^ w.
Definition wrap_signed (w x : Z) : Z := (x + 2 ^ (w - 1)) mod 2 ^ w - 2 ^ (w - 1).

(** The Go conversions [uint32(x)], [int32(x)] and [int64(x)]. *)
Definition uint32 (x : Z) : Z := wrap_unsigned 32 x.
Definition int32 (x : Z) : Z := wrap_signed 32 x.
Definition int64 (x : Z) : Z := wrap_signed 64 x.

Definition is_uint32 (x : Z) : Prop := 0 <= x < 2 ^ 32.

(** A [float64] is only ever copied by this program: it is kept as its
    IEEE-754 bit pattern, whose zero value is the pattern 0. *)
Definition float64 : Type := Z.

Inductive panic : Type :=
| NilDereference
| IndexOutOfRange
| NonPositiveInterval.

Inductive outcome (A : Type) : Type :=
| Ok (a : A)
| Panic (p : panic).
Arguments Ok {A} a.
Arguments Panic {A} p.

(** [outcome] is an error monad; stdpp's notation [x ← m; k] is its bind. *)
#[global] Instance outcome_ret : MRet outcome := fun A a => Ok a.
#[global] Instance outcome_bind : MBind outcome := fun A B k m =>
  match m with
  | Ok a => k a
  | Panic p => Panic p
  end.

(** ** Package runtime (environment) *)

Module runtime.

(** The fields of [runtime.MemStats] that the collector reads.  [PauseNs]
    is the Go array [[256]uint64]. *)
Record MemStats : Type := {
  Alloc : Z; TotalAlloc : Z; Sys : Z; Lookups : Z; Mallocs : Z; Frees : Z;
  HeapAlloc : Z; HeapSys : Z; HeapIdle : Z; HeapInuse : Z;
  HeapReleased : Z; HeapObjects : Z;
  StackInuse : Z; StackSys : Z; MSpanInuse : Z; MSpanSys : Z;
  MCacheInuse : Z; MCacheSys : Z; OtherSys : Z;
  GCSys : Z; NextGC : Z; LastGC : Z; PauseTotalNs : Z;
  PauseNs : list Z;
  NumGC : Z;
  GCCPUFraction : float64
}.

(** What one reading of the runtime returns. *)
Record Runtime : Type := {
  NumCPU : Z;
  NumGoroutine : Z;
  NumCgoCall : Z;
  ReadMemStats : MemStats;
  GOOS : string;
  GOARCH : string;
  Version : string
}.

(** The typing of [MemStats] that matters here: [PauseNs] has 256 entries
    and [NumGC] is a [uint32]. *)
Definition well_typed (m : MemStats) : Prop :=
  length (PauseNs m) = 256%nat /\ is_uint32 (NumGC m).

(** How the Go runtime records the end of a garbage collection, as
    documented for [MemStats.PauseNs]: the pause of the cycle is stored at
    [NumGC % 256] and [NumGC] is then incremented (as a [uint32]). *)
Definition gc_cycle (pause : Z) (m : MemStats) : MemStats :=
  {| Alloc := Alloc m; TotalAlloc := TotalAlloc m; Sys := Sys m;
     Lookups := Lookups m; Mallocs := Mallocs m; Frees := Frees m;
     HeapAlloc := HeapAlloc m; HeapSys := HeapSys m; HeapIdle := HeapIdle m;
     HeapInuse := HeapInuse m; HeapReleased := HeapReleased m;
     HeapObjects := HeapObjects m;
     StackInuse := StackInuse m; StackSys := StackSys m;
     MSpanInuse := MSpanInuse m; MSpanSys := MSpanSys m;
     MCacheInuse := MCacheInuse m; MCacheSys := MCacheSys m;
     OtherSys := OtherSys m;
     GCSys := GCSys m; NextGC := NextGC m; LastGC := LastGC m;
     PauseTotalNs := PauseTotalNs m;
     PauseNs := <[Z.to_nat (NumGC m mod 256) := pause]> (PauseNs m);
     NumGC := uint32 (NumGC m + 1);
     GCCPUFraction := GCCPUFraction m |}.

End runtime.

(** ** Package collector *)

Module collector.

Record Fields : Type := {
  (* CPU *)
  NumCpu : Z; NumGoroutine : Z; NumCgoCall : Z;
  (* General *)
  Alloc : Z; TotalAlloc : Z; Sys : Z; Lookups : Z; Mallocs : Z; Frees : Z;
  (* Heap *)
  HeapAlloc : Z; HeapSys : Z; HeapIdle : Z; HeapInuse : Z;
  HeapReleased : Z; HeapObjects : Z;
  (* Stack *)
  StackInuse : Z; StackSys : Z; MSpanInuse : Z; MSpanSys : Z;
  MCacheInuse : Z; MCacheSys : Z; OtherSys : Z;
  (* GC *)
  GCSys : Z; NextGC : Z; LastGC : Z; PauseTotalNs : Z; PauseNs : Z;
  NumGC : Z; GCCPUFraction : float64;
  Goarch : string; Goos : string; Version : string
}.

(** The zero value of [Fields] (a named result starts out as it). *)
Definition zero_Fields : Fields :=
  {| NumCpu := 0; NumGoroutine := 0; NumCgoCall := 0;
     Alloc := 0; TotalAlloc := 0; Sys := 0; Lookups := 0; Mallocs := 0;
     Frees := 0;
     HeapAlloc := 0; HeapSys := 0; HeapIdle := 0; HeapInuse := 0;
     HeapReleased := 0; HeapObjects := 0;
     StackInuse := 0; StackSys := 0; MSpanInuse := 0; MSpanSys := 0;
     MCacheInuse := 0; MCacheSys := 0; OtherSys := 0;
     GCSys := 0; NextGC := 0; LastGC := 0; PauseTotalNs := 0; PauseNs := 0;
     NumGC := 0; GCCPUFraction := 0;
     Goarch := ""; Goos := ""; Version := "" |}.

(** The struct tags [json:"..."] of [Fields], in declaration order (the
    three environment strings are tagged ["-"] and have no key). *)
Definition json_tags : list string :=
  [ "cpu.count"; "cpu.goroutines"; "cpu.cgo_calls";
    "mem.alloc"; "mem.total"; "mem.sys"; "mem.lookups"; "mem.malloc";
    "mem.frees";
    "mem.heap.alloc"; "mem.heap.sys"; "mem.heap.idle"; "mem.heap.inuse";
    "mem.heap.released"; "mem.heap.objects";
    "mem.stack.inuse"; "mem.stack.sys"; "mem.stack.mspan_inuse";
    "mem.stack.mspan_sys"; "mem.stack.mcache_inuse"; "mem.stack.mcache_sys";
    "mem.othersys";
    "mem.gc.sys"; "mem.gc.next"; "mem.gc.last"; "mem.gc.pause_total";
    "mem.gc.pause"; "mem.gc.count"; "mem.gc.cpu_fraction" ]%string.

Definition collectCPUStats (rt : runtime.Runtime) (f : Fields) : Fields :=
  {| NumCpu := runtime.NumCPU rt;
     NumGoroutine := runtime.NumGoroutine rt;
     NumCgoCall := runtime.NumCgoCall rt;
     Alloc := Alloc f; TotalAlloc := TotalAlloc f; Sys := Sys f;
     Lookups := Lookups f; Mallocs := Mallocs f; Frees := Frees f;
     HeapAlloc := HeapAlloc f; HeapSys := HeapSys f; HeapIdle := HeapIdle f;
     HeapInuse := HeapInuse f; HeapReleased := HeapReleased f;
     HeapObjects := HeapObjects f;
     StackInuse := StackInuse f; StackSys := StackSys f;
     MSpanInuse := MSpanInuse f; MSpanSys := MSpanSys f;
     MCacheInuse := MCacheInuse f; MCacheSys := MCacheSys f;
     OtherSys := OtherSys f;
     GCSys := GCSys f; NextGC := NextGC f; LastGC := LastGC f;
     PauseTotalNs := PauseTotalNs f; PauseNs := PauseNs f;
     NumGC := NumGC f; GCCPUFraction := GCCPUFraction f;
     Goarch := Goarch f; Goos := Goos f; Version := Version f |}.

(** The index expression [(m.NumGC+255)%256], computed on [uint32]. *)
Definition pause_index (m : runtime.MemStats) : Z :=
  uint32 (runtime.NumGC m + 255) mod 256.

(** [collectMemStats]: an index outside the array is a run-time panic. *)
Definition collectMemStats (rt : runtime.Runtime) (f : Fields) : outcome Fields :=
  let m := runtime.ReadMemStats rt in
  match runtime.PauseNs m !! Z.to_nat (pause_index m) with
  | None => Panic IndexOutOfRange
  | Some pause =>
    Ok {| NumCpu := NumCpu f; NumGoroutine := NumGoroutine f;
          NumCgoCall := NumCgoCall f;
          Alloc := int64 (runtime.Alloc m);
          TotalAlloc := int64 (runtime.TotalAlloc m);
          Sys := int64 (runtime.Sys m);
          Lookups := int64 (runtime.Lookups m);
          Mallocs := int64 (runtime.Mallocs m);
          Frees := int64 (runtime.Frees m);
          HeapAlloc := int64 (runtime.HeapAlloc m);
          HeapSys := int64 (runtime.HeapSys m);
          HeapIdle := int64 (runtime.HeapIdle m);
          HeapInuse := int64 (runtime.HeapInuse m);
          HeapReleased := int64 (runtime.HeapReleased m);
          HeapObjects := int64 (runtime.HeapObjects m);
          StackInuse := int64 (runtime.StackInuse m);
          StackSys := int64 (runtime.StackSys m);
          MSpanInuse := int64 (runtime.MSpanInuse m);
          MSpanSys := int64 (runtime.MSpanSys m);
          MCacheInuse := int64 (runtime.MCacheInuse m);
          MCacheSys := int64 (runtime.MCacheSys m);
          OtherSys := int64 (runtime.OtherSys m);
          GCSys := int64 (runtime.GCSys m);
          NextGC := int64 (runtime.NextGC m);
          LastGC := int64 (runtime.LastGC m);
          PauseTotalNs := int64 (runtime.PauseTotalNs m);
          PauseNs := int64 pause;
          NumGC := int32 (runtime.NumGC m);
          GCCPUFraction := runtime.GCCPUFraction m;
          Goarch := Goarch f; Goos := Goos f; Version := Version f |}
  end.

Definition set_environment (rt : runtime.Runtime) (f : Fields) : Fields :=
  {| NumCpu := NumCpu f; NumGoroutine := NumGoroutine f;
     NumCgoCall := NumCgoCall f;
     Alloc := Alloc f; TotalAlloc := TotalAlloc f; Sys := Sys f;
     Lookups := Lookups f; Mallocs := Mallocs f; Frees := Frees f;
     HeapAlloc := HeapAlloc f; HeapSys := HeapSys f; HeapIdle := HeapIdle f;
     HeapInuse := HeapInuse f; HeapReleased := HeapReleased f;
     HeapObjects := HeapObjects f;
     StackInuse := StackInuse f; StackSys := StackSys f;
     MSpanInuse := MSpanInuse f; MSpanSys := MSpanSys f;
     MCacheInuse := MCacheInuse f; MCacheSys := MCacheSys f;
     OtherSys := OtherSys f;
     GCSys := GCSys f; NextGC := NextGC f; LastGC := LastGC f;
     PauseTotalNs := PauseTotalNs f; PauseNs := PauseNs f;
     NumGC := NumGC f; GCCPUFraction := GCCPUFraction f;
     Goarch := runtime.GOARCH rt; Goos := runtime.GOOS rt;
     Version := runtime.Version rt |}.

(** The state of the receive-only channel [Done]: a nil channel is never
    ready, a closed one always is. *)
Inductive done_chan : Type := DoneNil | DoneOpen | DoneClosed.

Section Callback.

(** A callback acts on some state [W] of the embedding program. *)
Variable W : Type.

Definition CollectStatsCallback : Type := Fields -> W -> W.

Record Collector : Type := {
  PauseDur : Z;
  EnableCPU : bool;
  EnableMem : bool;
  Done : done_chan;
  collectStatsCallback : CollectStatsCallback
}.

Definition seconds (n : Z) : Z := n * 1000000000.

Definition New (callback : option CollectStatsCallback) : Collector :=
  let callback :=
    match callback with
    | None => fun (_ : Fields) (w : W) => w
    | Some cb => cb
    end in
  {| PauseDur := seconds 10;
     EnableCPU := true;
     EnableMem := true;
     Done := DoneNil;
     collectStatsCallback := callback |}.

Definition CollectStats (c : Collector) (rt : runtime.Runtime) : outcome Fields :=
  let fields := zero_Fields in
  fields ← (if EnableMem c then collectMemStats rt fields else Ok fields);
  let fields := if EnableCPU c then collectCPUStats rt fields else fields in
  Ok (set_environment rt fields).

(** *** Run *)

(** Where the goroutine executing [Run] is: waiting in its [select],
    inside the callback (called with the snapshot just taken), or
    returned. *)
Inductive run_pc : Type :=
| RunSelect
| RunCallback (fields : Fields)
| RunReturned.

(** What can be observed of a run, in order. *)
Inductive run_event : Type :=
| EvTick
| EvClose
| EvCall (fields : Fields)
| EvCallEnd
| EvReturn.

(** [tick_waiting]: a tick waits in the ticker's channel, which holds
    one tick; the ticker drops a tick when the channel is full. *)
Record run_state : Type := {
  run_at : run_pc;
  tick_waiting : bool;
  done_now : done_chan;
  user : W;
  trace : list run_event
}.

Inductive run_move : Type :=
| TickElapses
| DoneCloses
| RunSteps (prefer_tick : bool) (rt : runtime.Runtime).

Definition observe (e : run_event) (st : run_state) : run_state :=
  {| run_at := run_at st; tick_waiting := tick_waiting st;
     done_now := done_now st; user := user st;
     trace := trace st ++ [e] |}.

(** [case <-c.Done: return] *)
Definition take_done (st : run_state) : run_state :=
  observe EvReturn
    {| run_at := RunReturned; tick_waiting := tick_waiting st;
       done_now := done_now st; user := user st; trace := trace st |}.

(** [case <-tickCh:] the snapshot is taken and the callback entered. *)
Definition take_tick (c : Collector) (rt : runtime.Runtime) (st : run_state)
  : outcome run_state :=
  fields ← CollectStats c rt;
  Ok (observe (EvCall fields)
        {| run_at := RunCallback fields; tick_waiting := false;
           done_now := done_now st; user := user st; trace := trace st |}).

(** One move.  [RunSteps b rt] lets the goroutine of [Run] advance: in
    the callback, the callback returns; at the [select], it blocks when
    no case is ready, takes the only ready case, and when both are ready
    takes one of them ([b] stands for Go's random choice). *)
Definition run_step (c : Collector) (m : run_move) (st : run_state)
  : outcome run_state :=
  match m with
  | TickElapses =>
    Ok (observe EvTick
          {| run_at := run_at st; tick_waiting := true;
             done_now := done_now st; user := user st; trace := trace st |})
  | DoneCloses =>
    match done_now st with
    | DoneOpen =>
      Ok (observe EvClose
            {| run_at := run_at st; tick_waiting := tick_waiting st;
               done_now := DoneClosed; user := user st; trace := trace st |})
    | _ => Ok st
    end
  | RunSteps prefer_tick rt =>
    match run_at st with
    | RunReturned => Ok st
    | RunCallback fields =>
      Ok (observe EvCallEnd
            {| run_at := RunSelect; tick_waiting := tick_waiting st;
               done_now := done_now st;
               user := collectStatsCallback c fields (user st);
               trace := trace st |})
    | RunSelect =>
      match done_now st, tick_waiting st with
      | DoneClosed, false => Ok (take_done st)
      | DoneClosed, true =>
        if prefer_tick then take_tick c rt st else Ok (take_done st)
      | _, true => take_tick c rt st
      | _, false => Ok st
      end
    end
  end.

Fixpoint run_steps (c : Collector) (ms : list run_move) (st : run_state)
  : outcome run_state :=
  match ms with
  | [] => Ok st
  | m :: ms => st ← run_step c m st; run_steps c ms st
  end.

(** [Run] over a list of moves of the ticker, of whoever closes [Done],
    and of the goroutine itself. *)
Definition Run (c : Collector) (ms : list run_move) (w : W)
  : outcome run_state :=
  if PauseDur c <=? 0 then Panic NonPositiveInterval
  else
    run_steps c ms
      {| run_at := RunSelect; tick_waiting := false; done_now := Done c;
         user := w; trace := [] |}.

Definition is_call (e : run_event) : bool :=
  match e with EvCall _ => true | _ => false end.
Definition is_call_end (e : run_event) : bool :=
  match e with EvCallEnd => true | _ => false end.
Definition is_tick (e : run_event) : bool :=
  match e with EvTick => true | _ => false end.

Definition calls (tr : list run_event) : nat :=
  length (List.filter is_call tr).
Definition call_ends (tr : list run_event) : nat :=
  length (List.filter is_call_end tr).
Definition ticks (tr : list run_event) : nat :=
  length (List.filter is_tick tr).

(** From [st] on, no further invocation of the callback starts,
    whatever moves follow. *)
Definition stops_calling (c : Collector) (st : run_state) : Prop :=
  forall ms st',
    run_steps c ms st = Ok st' -> calls (trace st') = calls (trace st).

(** What holds of every state of a run: each invocation has taken a
    tick of its own out of the ticker's channel; invocations do not
    overlap, and none is in flight at the [select] or after the return;
    [Run] has returned only with [Done] closed. *)
Definition run_invariant (st : run_state) : Prop :=
  (calls (trace st) + (if tick_waiting st then 1 else 0) <= ticks (trace st))%nat
  /\ match run_at st with
     | RunCallback _ => calls (trace st) = S (call_ends (trace st))
     | _ => calls (trace st) = call_ends (trace st)
     end
  /\ (run_at st = RunReturned -> done_now st = DoneClosed).

End Callback.

Arguments PauseDur {W} c.
Arguments EnableCPU {W} c.
Arguments EnableMem {W} c.
Arguments Done {W} c.
Arguments collectStatsCallback {W} c.
Arguments New {W} callback.
Arguments CollectStats {W} c rt.
Arguments run_at {W} _.
Arguments tick_waiting {W} _.
Arguments done_now {W} _.
Arguments user {W} _.
Arguments trace {W} _.
Arguments take_done {W} st.
Arguments take_tick {W} c rt st.
Arguments run_step {W} c m st.
Arguments run_steps {W} c ms st.
Arguments Run {W} c ms w.
Arguments stops_calling {W} c st.
Arguments run_invariant {W} st.

(** A Go value of type [interface{}] as stored by [Values]. *)
Inductive value : Type :=
| VInt (n : Z)
| VInt64 (n : Z)
| VInt32 (n : Z)
| VFloat64 (x : float64).

Definition Tags (f : Fields) : gmap string string :=
  list_to_map
    [ ("go.os", Goos f);
      ("go.arch", Goarch f);
      ("go.version", Version f) ]%string.

Definition Values (f : Fields) : gmap string value :=
  list_to_map
    [ ("cpu.count", VInt (NumCpu f));
      ("cpu.goroutines", VInt (NumGoroutine f));
      ("cpu.cgo_calls", VInt64 (NumCgoCall f));

      ("mem.alloc", VInt64 (Alloc f));
      ("mem.total", VInt64 (TotalAlloc f));
      ("mem.sys", VInt64 (Sys f));
      ("mem.lookups", VInt64 (Lookups f));
      ("mem.malloc", VInt64 (Mallocs f));
      ("mem.frees", VInt64 (Frees f));

      ("mem.heap.alloc", VInt64 (HeapAlloc f));
      ("mem.heap.sys", VInt64 (HeapSys f));
      ("mem.heap.idle", VInt64 (HeapIdle f));
      ("mem.heap.inuse", VInt64 (HeapInuse f));
      ("mem.heap.released", VInt64 (HeapReleased f));
      ("mem.heap.objects", VInt64 (HeapObjects f));

      ("mem.stack.inuse", VInt64 (StackInuse f));
      ("mem.stack.sys", VInt64 (StackSys f));
      ("mem.stack.mspan_inuse", VInt64 (MSpanInuse f));
      ("mem.stack.mspan_sys", VInt64 (MSpanSys f));
      ("mem.stack.mcache_inuse", VInt64 (MCacheInuse f));
      ("mem.stack.mcache_sys", VInt64 (MCacheSys f));
      ("mem.othersys", VInt64 (OtherSys f));

      ("mem.gc.pause", VInt64 (PauseNs f));
      ("mem.gc.pause_total", VInt64 (PauseTotalNs f));
      ("mem.gc.sys", VInt64 (GCSys f));
      ("mem.gc.next", VInt64 (NextGC f));
      ("mem.gc.last", VInt64 (LastGC f));
      ("mem.gc.count", VInt32 (NumGC f));
      ("mem.gc.cpu_fraction", VFloat64 (GCCPUFraction f)) ]%string.

(** The two groups of counters: the fields whose key starts with [cpu.]
    and those whose key starts with [mem.]. *)
Definition cpu_fields (f : Fields) : list Z :=
  [ NumCpu f; NumGoroutine f; NumCgoCall f ].

Definition mem_fields (f : Fields) : list Z * float64 :=
  ([ Alloc f; TotalAlloc f; Sys f; Lookups f; Mallocs f; Frees f;
     HeapAlloc f; HeapSys f; HeapIdle f; HeapInuse f; HeapReleased f;
     HeapObjects f;
     StackInuse f; StackSys f; MSpanInuse f; MSpanSys f; MCacheInuse f;
     MCacheSys f; OtherSys f;
     GCSys f; NextGC f; LastGC f; PauseTotalNs f; PauseNs f; NumGC f ],
   GCCPUFraction f).

Definition env_fields (f : Fields) : list string :=
  [ Goos f; Goarch f; Version f ].

End collector.

(** ** Package influxdb (pull mode) *)

Module influxdb.

Record Point : Type := {
  Name : string;
  Tags : gmap string string;
  Values : collector.Fields
}.

(** [Metrics measurement] is the function published through expvar; one
    call takes one reading [rt] of the runtime. *)
Definition Metrics (measurement : string) (rt : runtime.Runtime) : outcome Point :=
  v ← collector.CollectStats (collector.New (W := unit) None) rt;
  Ok {| Name := measurement;
        Tags := collector.Tags v;
        Values := v |}.

End influxdb.

(** ** Effects: state, panics and errors *)

(** A computation over a store [S] either panics or returns a value and
    the new store. *)
Definition M (S A : Type) : Type := S -> outcome (A * S).

#[global] Instance M_ret (S : Type) : MRet (M S) := fun A a s => Ok (a, s).
#[global] Instance M_bind (S : Type) : MBind (M S) := fun A B k m s =>
  match m s with
  | Ok (a, s') => k a s'
  | Panic p => Panic p
  end.

Definition throw {S A : Type} (p : panic) : M S A := fun _ => Panic p.
Definition modify {S : Type} (f : S -> S) : M S unit := fun s => Ok (tt, f s).

(** A Go [error] value is identified with its message; [nil] is [None]. *)
Definition error : Type := string.

(** [errors.Wrap(err, message)]. *)
Definition Wrap (err : error) (message : string) : error :=
  (message ++ ": " ++ err)%string.

(** [time.NewTicker(d)] panics unless [d] is positive. *)
Definition NewTicker {S : Type} (d : Z) : M S unit :=
  if d <=? 0 then throw NonPositiveInterval else mret tt.

(** ** Package runstats (push mode, InfluxDB v1) *)

Module runstats.

Definition defaultHost : string := "http://localhost:8086".
Definition defaultMeasurement : string := "go.runtime".
Definition defaultDatabase : string := "stats".
Definition defaultCollectionInterval : Z := collector.seconds 10.
Definition defaultBatchInterval : Z := collector.seconds 60.
Definition defaultPingInterval : Z := collector.seconds 60.

(** A non-nil value of the interface [Logger]: the repository's
    [DefaultLogger] or a logger of the embedding program. *)
Inductive logger_value : Type :=
| DefaultLogger
| UserLogger (id : nat).

Record Config : Type := {
  Addr : string;
  Database : string;
  Username : string;
  Password : string;
  Measurement : string;
  RetentionPolicy : string;
  BatchInterval : Z;
  PingInterval : Z;
  Precision : string;
  CollectionInterval : Z;
  DisableCpu : bool;
  DisableMem : bool;
  Logger : option logger_value
}.

(** [Config{}] *)
Definition zero_Config : Config :=
  {| Addr := ""; Database := ""; Username := ""; Password := "";
     Measurement := ""; RetentionPolicy := "";
     BatchInterval := 0; PingInterval := 0; Precision := "";
     CollectionInterval := 0;
     DisableCpu := false; DisableMem := false; Logger := None |}.

(** *** The client library, as far as the sender uses it *)

Record HTTPConfig : Type := {
  http_Addr : string; http_Username : string; http_Password : string
}.

Record BatchPointsConfig : Type := {
  bp_Database : string; bp_Precision : string; bp_RetentionPolicy : string
}.

Record Point : Type := {
  pt_name : string;
  pt_tags : gmap string string;
  pt_fields : gmap string collector.value;
  pt_time : Z
}.

(** What the process finds around it without using the network: the
    constructors of the client library check their arguments (the address,
    the precision, the field set) and answer for given arguments always the
    same, and [os.Hostname] names the host or fails. *)
Record Env : Type := {
  NewHTTPClient : HTTPConfig -> option error;
  NewBatchPoints : BatchPointsConfig -> option error;
  NewPoint : string -> gmap string string -> gmap string collector.value ->
             Z -> option error;
  Hostname : option string
}.

(** The answer to [Client.Query]: no answer at all, an answer that
    carries an error, or results. *)
Inductive query_answer : Type :=
| QueryFailed (err : error)
| QueryRejected (err : error)
| QueryResults.

(** What the network does during [newStatsSender]. *)
Record startup : Type := {
  ping_answer : option error;
  create_database_answer : query_answer
}.

(** *** The sender and the store *)

(** [config] is a non-nil pointer; [client] and [points] are interface
    values and may be nil.  The channel [pc] is part of [system] below. *)
Record statsSender : Type := {
  config : nat;
  logger : option logger_value;
  client : option nat;
  points : option (list Point)
}.

Definition set_client (c : option nat) (r : statsSender) : statsSender :=
  {| config := config r; logger := logger r; client := c;
     points := points r |}.

Definition set_points (bp : option (list Point)) (r : statsSender) : statsSender :=
  {| config := config r; logger := logger r; client := client r;
     points := bp |}.

Inductive goroutine : Type :=
| GoPing
| GoLoop (interval : Z)
| GoRun (PauseDur : Z) (EnableCPU EnableMem : bool).

(** The store: the heap of [Config] objects, the client handles handed
    out and closed, the batches the sink accepted (with the handle they
    were written through), the log lines and the goroutines started. *)
Record world : Type := {
  heap : gmap nat Config;
  next_handle : nat;
  closed : list nat;
  written : list (nat * list Point);
  logged : list string;
  spawned : list goroutine
}.

Definition set_heap (h : gmap nat Config) (w : world) : world :=
  {| heap := h; next_handle := next_handle w; closed := closed w;
     written := written w; logged := logged w; spawned := spawned w |}.

Definition store (l : nat) (c : Config) : M world unit :=
  modify (fun w => set_heap (<[l := c]> (heap w)) w).

(** [&Config{}] *)
Definition alloc (c : Config) : M world nat :=
  fun w =>
    let l := fresh (dom (heap w)) in
    Ok (l, set_heap (<[l := c]> (heap w)) w).

(** Reading through a pointer; Go has no dangling pointers, so a location
    outside the heap is treated like nil. *)
Definition deref (p : option nat) : M world Config :=
  fun w =>
    match p with
    | None => Panic NilDereference
    | Some l =>
      match heap w !! l with
      | Some c => Ok (c, w)
      | None => Panic NilDereference
      end
    end.

Definition log_line (line : string) : M world unit :=
  modify (fun w =>
    {| heap := heap w; next_handle := next_handle w; closed := closed w;
       written := written w; logged := logged w ++ [line];
       spawned := spawned w |}).

(** [lg.Println(err)] through an interface value. *)
Definition Println (lg : option logger_value) (line : string) : M world unit :=
  match lg with
  | None => throw NilDereference
  | Some _ => log_line line
  end.

Definition go (g : goroutine) : M world unit :=
  modify (fun w =>
    {| heap := heap w; next_handle := next_handle w; closed := closed w;
       written := written w; logged := logged w;
       spawned := spawned w ++ [g] |}).

Definition new_handle : M world nat :=
  fun w =>
    Ok (next_handle w,
        {| heap := heap w; next_handle := S (next_handle w);
           closed := closed w; written := written w; logged := logged w;
           spawned := spawned w |}).

(** [c.Close()] *)
Definition Close (c : option nat) : M world unit :=
  match c with
  | None => throw NilDereference
  | Some h =>
    modify (fun w =>
      {| heap := heap w; next_handle := next_handle w;
         closed := closed w ++ [h]; written := written w;
         logged := logged w; spawned := spawned w |})
  end.

Definition accept_batch (h : nat) (batch : list Point) : M world unit :=
  modify (fun w =>
    {| heap := heap w; next_handle := next_handle w; closed := closed w;
       written := written w ++ [(h, batch)]; logged := logged w;
       spawned := spawned w |}).

(** *** Config.init *)

(** The assignments of [init] on the [Config] the receiver points to. *)
Definition defaults (env : Env) (config : Config) : Config :=
  {| Addr := if (Addr config =? "")%string then defaultHost else Addr config;
     Database :=
       if (Database config =? "")%string then defaultDatabase
       else Database config;
     Username := Username config;
     Password := Password config;
     Measurement :=
       if (Measurement config =? "")%string then
         match Hostname env with
         | None => defaultMeasurement ++ ".unknown"
         | Some hn => defaultMeasurement ++ "." ++ hn
         end%string
       else Measurement config;
     RetentionPolicy := RetentionPolicy config;
     BatchInterval :=
       if BatchInterval config =? 0 then defaultBatchInterval
       else BatchInterval config;
     PingInterval :=
       if PingInterval config =? 0 then defaultPingInterval
       else PingInterval config;
     Precision := Precision config;
     CollectionInterval :=
       if CollectionInterval config =? 0 then defaultCollectionInterval
       else CollectionInterval config;
     DisableCpu := DisableCpu config;
     DisableMem := DisableMem config;
     Logger :=
       match Logger config with
       | None => Some DefaultLogger
       | Some lg => Some lg
       end |}.

(** [func (config *Config) init()]: the receiver is a copy of the caller's
    pointer, so the assignment under the nil guard rebinds the copy only. *)
Definition init (env : Env) (config : option nat) : M world unit :=
  l ← match config with
      | None => alloc zero_Config
      | Some l => mret l
      end;
  c ← deref (Some l);
  store l (defaults env c).

(** "Every duration field is strictly positive". *)
Definition durations_positive (c : Config) : Prop :=
  0 < CollectionInterval c /\ 0 < BatchInterval c /\ 0 < PingInterval c.

Definition durations_nonnegative (c : Config) : Prop :=
  0 <= CollectionInterval c /\ 0 <= BatchInterval c /\ 0 <= PingInterval c.

(** *** Construction *)

(** [newClient]: the result parameters are [client] and [err].  The [err]
    tested and assigned in the ping statement is a new variable declared
    by that [if] statement; the final bare [return] returns the result
    parameter [err], which the ping statement never assigns. *)
Definition newClient (env : Env) (conf : HTTPConfig) (ping : option error)
  : M world (option nat * option error) :=
  match NewHTTPClient env conf with
  | Some err => mret (None, Some (Wrap err "failed to create influxDB client"))
  | None =>
    h ← new_handle;
    let client := Some h in
    let err : option error := None in
    let err_in_if : option error :=
      match ping with
      | Some e => Some (Wrap e "failed to ping influxDB client")
      | None => None
      end in
    mret (client, err)
  end.

(** [queryDB]: [err] in the [if] statement is again a new variable, so
    the bare [return] after a failed query returns a nil error; the error
    carried by an answer is returned explicitly. *)
Definition queryDB (c : option nat) (cmd : string) (answer : query_answer)
  : option error :=
  match answer with
  | QueryFailed _ => None
  | QueryRejected err => Some err
  | QueryResults => None
  end.

Definition http_config (cfg : Config) : HTTPConfig :=
  {| http_Addr := Addr cfg; http_Username := Username cfg;
     http_Password := Password cfg |}.

Definition newBatch (env : Env) (r : statsSender)
  : M world (option (list Point) * option error) :=
  cfg ← deref (Some (config r));
  match NewBatchPoints env
          {| bp_Database := Database cfg; bp_Precision := Precision cfg;
             bp_RetentionPolicy := RetentionPolicy cfg |} with
  | Some err =>
    _ ← Println (logger r) (Wrap err "could not create BatchPoints");
    mret (None, Some err)
  | None => mret (Some [], None)
  end.

Definition newStatsSender (env : Env) (net : startup) (config : option nat)
  : M world (option statsSender * option error) :=
  cfg ← deref config;
  '(client, err) ← newClient env (http_config cfg) (ping_answer net);
  match err with
  | Some err => mret (None, Some err)
  | None =>
    (* Auto create database *)
    let err :=
      queryDB client ("CREATE DATABASE " ++ Database cfg)
              (create_database_answer net) in
    _ ← match err with
        | Some err => Println (Logger cfg) err
        | None => mret tt
        end;
    match config with
    | None => throw NilDereference
    | Some l =>
      let sender :=
        {| config := l; logger := Logger cfg; client := client;
           points := None |} in
      '(bp, err) ← newBatch env sender;
      match err with
      | Some err => _ ← Close client; mret (None, Some err)
      | None =>
        let sender := set_points bp sender in
        _ ← go GoPing;
        mret (Some sender, None)
      end
    end
  end.

Definition RunCollector (env : Env) (net : startup) (config : option nat)
  : M world (option error) :=
  _ ← init env config;
  '(sender, err) ← newStatsSender env net config;
  match err with
  | Some err => mret (Some err)
  | None =>
    cfg ← deref config;
    _ ← go (GoLoop (BatchInterval cfg));
    _ ← go (GoRun (CollectionInterval cfg)
                  (negb (DisableCpu cfg)) (negb (DisableMem cfg)));
    mret None
  end.

(** *** The point pipeline *)

(** [onNewPoint] up to its last statement: the point it is about to send
    on [r.pc], or nothing when [NewPoint] failed and it returned early. *)
Definition onNewPoint (env : Env) (r : statsSender)
           (fields : collector.Fields) (now : Z) : M world (option Point) :=
  cfg ← deref (Some (config r));
  match NewPoint env (Measurement cfg) (collector.Tags fields)
                 (collector.Values fields) now with
  | Some err =>
    _ ← Println (logger r) (Wrap err "error while creating point");
    mret None
  | None =>
    mret (Some {| pt_name := Measurement cfg;
                  pt_tags := collector.Tags fields;
                  pt_fields := collector.Values fields;
                  pt_time := now |})
  end.

(** The body of [case <-tickCh] up to the call of [Write]: whether a write
    is attempted. *)
Definition flush_begin (r : statsSender) : M world bool :=
  match points r with
  | None => throw NilDereference
  | Some batch => mret (negb (length batch =? 0)%nat)
  end.

(** The rest of that body, given the answer of [r.client.Write]. *)
Definition flush_end (env : Env) (write : option error) (r : statsSender)
  : M world statsSender :=
  match client r, points r with
  | Some h, Some batch =>
    match write with
    | Some err =>
      _ ← Println (logger r) (Wrap err "could not write points to InfluxDB");
      mret r
    | None =>
      _ ← accept_batch h batch;
      '(bp, _) ← newBatch env r;
      mret (set_points bp r)
    end
  | _, _ => throw NilDereference
  end.

(** [case pt := <-r.pc] *)
Definition receive (pt : Point) (r : statsSender) : statsSender :=
  match points r with
  | Some batch => set_points (Some (batch ++ [pt])) r
  | None => r
  end.

(** What one turn of the [select] in [loop] receives: a tick of the flush
    ticker, together with the sink's answer should a write be attempted, or
    a point from [r.pc]. *)
Inductive loop_event : Type :=
| FlushTick (write : option error)
| PointArrives (pt : Point).

Definition loop_turn (env : Env) (ev : loop_event) (r : statsSender)
  : M world statsSender :=
  match ev with
  | FlushTick write =>
    attempt ← flush_begin r;
    if attempt : bool then flush_end env write r else mret r
  | PointArrives pt => mret (receive pt r)
  end.

Fixpoint loop_turns (env : Env) (evs : list loop_event) (r : statsSender)
  : M world statsSender :=
  match evs with
  | [] => mret r
  | ev :: evs => r ← loop_turn env ev r; loop_turns env evs r
  end.

(** [loop] over the events its [select] receives (the Go loop never
    returns; any finite prefix of its run is [loop] of some list). *)
Definition loop (env : Env) (interval : Z) (evs : list loop_event)
           (r : statsSender) : M world statsSender :=
  _ ← NewTicker interval;
  loop_turns env evs r.

(** The points a list of events brings, in order. *)
Definition arrivals (evs : list loop_event) : list Point :=
  flat_map (fun ev => match ev with
                      | PointArrives pt => [pt]
                      | FlushTick _ => []
                      end) evs.

(** The sink refuses the write of this event, if it is a flush. *)
Definition no_success (ev : loop_event) : Prop :=
  match ev with
  | FlushTick None => False
  | _ => True
  end.

(** *** The health check *)

(** One tick of the ping goroutine: the answer to [sender.client.Ping]
    and, should it reconnect, the answer to the ping inside [newClient]. *)
Record ping_tick : Type := {
  ping : option error;
  reconnect_ping : option error
}.

Definition ping_turn (env : Env) (tick : ping_tick)
           (st : statsSender * option error)
  : M world (statsSender * option error) :=
  let '(sender, lastPingError) := st in
  match client sender with
  | None => throw NilDereference
  | Some _ =>
    match ping tick with
    | Some err =>
      _ ← log_line ("ping error: " ++ err);
      mret (sender, Some err)
    | None =>
      match lastPingError with
      | None => mret (sender, lastPingError)
      | Some _ =>
        _ ← log_line "ping ok";
        cfg ← deref (Some (config sender));
        '(client', err) ← newClient env (http_config cfg) (reconnect_ping tick);
        match err with
        | None =>
          _ ← Close (client sender);
          _ ← log_line "client reconnected";
          mret (set_client client' sender, None)
        | Some _ => mret (sender, lastPingError)
        end
      end
    end
  end.

Fixpoint ping_turns (env : Env) (ticks : list ping_tick)
         (st : statsSender * option error)
  : M world (statsSender * option error) :=
  match ticks with
  | [] => mret st
  | tick :: ticks => st ← ping_turn env tick st; ping_turns env ticks st
  end.

(** The goroutine started by [newStatsSender], over the ticks of its
    ticker; [lastPingError] starts out nil. *)
Definition ping_loop (env : Env) (ticks : list ping_tick) (sender : statsSender)
  : M world (statsSender * option error) :=
  cfg ← deref (Some (config sender));
  _ ← NewTicker (PingInterval cfg);
  ping_turns env ticks (sender, None).

(** The parts of the store the health check can change besides the log. *)
Definition same_handles (w w' : world) : Prop :=
  heap w' = heap w /\ closed w' = closed w /\ next_handle w' = next_handle w.

Definition ping_fails (tick : ping_tick) : Prop := ping tick <> None.
Definition ping_succeeds (tick : ping_tick) : Prop := ping tick = None.

(** *** The two goroutines around the channel [pc] *)

(** Where the batch loop is: waiting in its [select], or inside
    [r.client.Write] waiting for the sink. *)
Inductive loop_pc : Type := AtSelect | InWrite.

(** [flush_due]: a tick waits in the ticker's channel (which holds one).
    [sending]: the Collector's goroutine is inside [onNewPoint], blocked
    in [r.pc <- pt]; [pc] is unbuffered, so the send completes only when
    the batch loop takes the point in its [select]. *)
Record system : Type := {
  sender : statsSender;
  loop_at : loop_pc;
  flush_due : bool;
  sending : option Point
}.

Inductive move : Type :=
| CollectorCalls (fields : collector.Fields) (now : Z)
| TickerFires
| LoopSelects (prefer_tick : bool)
| SinkAnswers (write : option error).

Definition take_tick (s : system) : M world system :=
  attempt ← flush_begin (sender s);
  mret {| sender := sender s;
          loop_at := if attempt : bool then InWrite else AtSelect;
          flush_due := false;
          sending := sending s |}.

Definition take_point (pt : Point) (s : system) : system :=
  {| sender := receive pt (sender s); loop_at := loop_at s;
     flush_due := flush_due s; sending := None |}.

(** One move of the system.  [LoopSelects b] is one execution of the
    [select] statement: it blocks when no case is ready, takes the only
    ready case, and when both are ready takes one of them ([b] stands for
    Go's random choice). *)
Definition step (env : Env) (m : move) (s : system) : M world system :=
  match m with
  | CollectorCalls fields now =>
    match sending s with
    | Some _ => mret s
    | None =>
      pt ← onNewPoint env (sender s) fields now;
      mret {| sender := sender s; loop_at := loop_at s;
              flush_due := flush_due s; sending := pt |}
    end
  | TickerFires =>
    mret {| sender := sender s; loop_at := loop_at s; flush_due := true;
            sending := sending s |}
  | LoopSelects prefer_tick =>
    match loop_at s with
    | InWrite => mret s
    | AtSelect =>
      match flush_due s, sending s with
      | false, None => mret s
      | true, None => take_tick s
      | false, Some pt => mret (take_point pt s)
      | true, Some pt =>
        if prefer_tick then take_tick s else mret (take_point pt s)
      end
    end
  | SinkAnswers write =>
    match loop_at s with
    | AtSelect => mret s
    | InWrite =>
      r ← flush_end env write (sender s);
      mret {| sender := r; loop_at := AtSelect; flush_due := flush_due s;
              sending := sending s |}
    end
  end.

Fixpoint steps (env : Env) (ms : list move) (s : system) : M world system :=
  match ms with
  | [] => mret s
  | m :: ms => s ← step env m s; steps env ms s
  end.

(** The system right after [RunCollector] has started the goroutines. *)
Definition started (r : statsSender) : system :=
  {| sender := r; loop_at := AtSelect; flush_due := false; sending := None |}.

Definition is_sink_answer (m : move) : bool :=
  match m with
  | SinkAnswers _ => true
  | _ => false
  end.

(** The reading of "[onNewPoint] only performs a local enqueue, whatever
    the batch loop and the sink are doing" with a bound [n]: in every
    state the system reaches, a call of [onNewPoint] has returned once the
    batch loop has been given [n] turns, without any answer of the sink. *)
Definition onNewPoint_returns_within (env : Env) (r : statsSender) (w : world)
           (n : nat) : Prop :=
  forall ms s1 w1 fields now s2 w2,
    steps env ms (started r) w = Ok (s1, w1) ->
    sending s1 = None ->
    step env (CollectorCalls fields now) s1 w1 = Ok (s2, w2) ->
    exists s3 w3,
      steps env (replicate n (LoopSelects false)) s2 w2 = Ok (s3, w3)
      /\ sending s3 = None.

End runstats.

(** ** Package metrics (push mode, InfluxDB v2) *)

Module metrics.

Definition defaultHost : string := "http://localhost:8086".
Definition defaultMeasurement : string := "go.runtime".
Definition defaultBucket : string := "stats".
Definition defaultCollectionInterval : Z := collector.seconds 10.
Definition defaultFlushInterval : N := 60000.

(** [FlushInterval] is a [uint], in milliseconds. *)
Record Config : Type := {
  Addr : string;
  AuthToken : string;
  Org : string;
  Bucket : string;
  Measurement : string;
  FlushInterval : N;
  CollectionInterval : Z;
  DisableCpu : bool;
  DisableMem : bool
}.

Record Point : Type := {
  pt_name : string;
  pt_tags : gmap string string;
  pt_fields : gmap string collector.value;
  pt_time : Z
}.

Record statsSender : Type := {
  config : nat
}.

Inductive goroutine : Type :=
| GoRun (PauseDur : Z) (EnableCPU EnableMem : bool).

(** The store: the heap of [Config] objects, the points handed to the
    client library's write API, and the goroutines started. *)
Record world : Type := {
  heap : gmap nat Config;
  handed_over : list Point;
  spawned : list goroutine
}.

Definition store (l : nat) (c : Config) : M world unit :=
  modify (fun w =>
    {| heap := <[l := c]> (heap w); handed_over := handed_over w;
       spawned := spawned w |}).

Definition deref (p : option nat) : M world Config :=
  fun w =>
    match p with
    | None => Panic NilDereference
    | Some l =>
      match heap w !! l with
      | Some c => Ok (c, w)
      | None => Panic NilDereference
      end
    end.

Definition go (g : goroutine) : M world unit :=
  modify (fun w =>
    {| heap := heap w; handed_over := handed_over w;
       spawned := spawned w ++ [g] |}).

(** The assignments of [init] on the [Config] the receiver points to;
    [hostname] is the result of [os.Hostname]. *)
Definition defaults (hostname : option string) (config : Config) : Config :=
  {| Addr := if (Addr config =? "")%string then defaultHost else Addr config;
     AuthToken := AuthToken config;
     Org := Org config;
     Bucket :=
       if (Bucket config =? "")%string then defaultBucket else Bucket config;
     Measurement :=
       if (Measurement config =? "")%string then
         match hostname with
         | None => defaultMeasurement ++ ".unknown"
         | Some hn => defaultMeasurement ++ "." ++ hn
         end%string
       else Measurement config;
     FlushInterval :=
       if (FlushInterval config =? 0)%N then defaultFlushInterval
       else FlushInterval config;
     CollectionInterval :=
       if CollectionInterval config =? 0 then defaultCollectionInterval
       else CollectionInterval config;
     DisableCpu := DisableCpu config;
     DisableMem := DisableMem config |}.

(** [func (config *Config) init()]: the nil guard stores through the nil
    receiver. *)
Definition init (hostname : option string) (config : option nat) : M world unit :=
  match config with
  | None => throw NilDereference
  | Some l =>
    c ← deref (Some l);
    store l (defaults hostname c)
  end.

(** "Every duration field is strictly positive". *)
Definition durations_positive (c : Config) : Prop :=
  0 < CollectionInterval c /\ (0 < FlushInterval c)%N.

(** The client and its write API are built without any check or
    connection; they are not represented. *)
Definition newStatsSender (config : option nat) : M world statsSender :=
  _ ← deref config;
  match config with
  | None => throw NilDereference
  | Some l => mret {| config := l |}
  end.

Definition RunCollector (hostname : option string) (config : option nat)
  : M world (option error) :=
  _ ← init hostname config;
  sender ← newStatsSender config;
  cfg ← deref config;
  _ ← go (GoRun (CollectionInterval cfg)
                (negb (DisableCpu cfg)) (negb (DisableMem cfg)));
  mret None.

(** [onNewPoint]: the point is handed to [writeAPI.WritePoint]. *)
Definition onNewPoint (r : statsSender) (fields : collector.Fields) (now : Z)
  : M world unit :=
  cfg ← deref (Some (config r));
  let p := {| pt_name := Measurement cfg;
              pt_tags := collector.Tags fields;
              pt_fields := collector.Values fields;
              pt_time := now |} in
  modify (fun w =>
    {| heap := heap w; handed_over := handed_over w ++ [p];
       spawned := spawned w |}).

End metrics.

(** ** Sample inputs *)

Module samples.
Import runtime.

(** A reading after three garbage collections with pauses 10, 20 and 30. *)
Definition mem_stats : MemStats :=
  {| Alloc := 4096; TotalAlloc := 8192; Sys := 65536; Lookups := 3;
     Mallocs := 40; Frees := 7;
     HeapAlloc := 4096; HeapSys := 32768; HeapIdle := 1024;
     HeapInuse := 2048; HeapReleased := 0; HeapObjects := 33;
     StackInuse := 512; StackSys := 512; MSpanInuse := 64; MSpanSys := 128;
     MCacheInuse := 16; MCacheSys := 32; OtherSys := 5;
     GCSys := 256; NextGC := 16384; LastGC := 1700000000;
     PauseTotalNs := 60;
     PauseNs := [10; 20; 30] ++ replicate 253 0;
     NumGC := 3;
     GCCPUFraction := 0 |}.

Definition reading : Runtime :=
  {| NumCPU := 4; NumGoroutine := 2; NumCgoCall := 1;
     ReadMemStats := mem_stats;
     GOOS := "linux"; GOARCH := "amd64"; Version := "go1.16" |}.

(** A collector with CPU statistics switched off. *)
Definition no_cpu : collector.Collector unit :=
  {| collector.PauseDur := collector.seconds 10;
     collector.EnableCPU := false;
     collector.EnableMem := true;
     collector.Done := collector.DoneNil;
     collector.collectStatsCallback := fun _ w => w |}.

(** A client library that accepts every argument, on a host that has a
    name. *)
Definition env : runstats.Env :=
  {| runstats.NewHTTPClient := fun _ => None;
     runstats.NewBatchPoints := fun _ => None;
     runstats.NewPoint := fun _ _ _ _ => None;
     runstats.Hostname := Some "host"%string |}.

Definition world_with (c : runstats.Config) : runstats.world :=
  {| runstats.heap := {[ 0%nat := c ]};
     runstats.next_handle := 0;
     runstats.closed := [];
     runstats.written := [];
     runstats.logged := [];
     runstats.spawned := [] |}.

(** [&Config{CollectionInterval: -1}] *)
Definition negative_interval : runstats.Config :=
  {| runstats.Addr := ""; runstats.Database := ""; runstats.Username := "";
     runstats.Password := ""; runstats.Measurement := "";
     runstats.RetentionPolicy := "";
     runstats.BatchInterval := 0; runstats.PingInterval := 0;
     runstats.Precision := "";
     runstats.CollectionInterval := -1;
     runstats.DisableCpu := false; runstats.DisableMem := false;
     runstats.Logger := None |}.

Definition world2_with (c : metrics.Config) : metrics.world :=
  {| metrics.heap := {[ 0%nat := c ]};
     metrics.handed_over := [];
     metrics.spawned := [] |}.

(** [&metrics.Config{}] *)
Definition zero_Config2 : metrics.Config :=
  {| metrics.Addr := ""; metrics.AuthToken := ""; metrics.Org := "";
     metrics.Bucket := ""; metrics.Measurement := "";
     metrics.FlushInterval := 0; metrics.CollectionInterval := 0;
     metrics.DisableCpu := false; metrics.DisableMem := false |}.

(** No server listens at the address: no request is answered. *)
Definition unreachable : runstats.startup :=
  {| runstats.ping_answer := Some "connection refused"%string;
     runstats.create_database_answer :=
       runstats.QueryFailed "connection refused"%string |}.

(** The sender [newStatsSender] returns for the configuration at
    location 0: first client handle, empty batch. *)
Definition sender : runstats.statsSender :=
  {| runstats.config := 0;
     runstats.logger := Some runstats.DefaultLogger;
     runstats.client := Some 0%nat;
     runstats.points := Some [] |}.

Definition point (t : Z) : runstats.Point :=
  {| runstats.pt_name := "go.runtime.host";
     runstats.pt_tags := ∅;
     runstats.pt_fields := ∅;
     runstats.pt_time := t |}.

(** Two points arrive, each followed by a flush the sink refuses. *)
Definition two_failed_flushes : list runstats.loop_event :=
  [ runstats.PointArrives (point 1);
    runstats.FlushTick (Some "timeout"%string);
    runstats.PointArrives (point 2);
    runstats.FlushTick (Some "timeout"%string) ].

(** The sink is away for two ticks of the health check and back at the
    third. *)
Definition outage : list runstats.ping_tick :=
  [ {| runstats.ping := Some "connection refused"%string;
       runstats.reconnect_ping := None |};
    {| runstats.ping := Some "connection refused"%string;
       runstats.reconnect_ping := None |} ].

Definition back : runstats.ping_tick :=
  {| runstats.ping := None; runstats.reconnect_ping := None |}.

(** The store after [newStatsSender] with the default configuration: one
    client handle handed out, the ping goroutine started. *)
Definition running : runstats.world :=
  {| runstats.heap := {[ 0%nat := runstats.defaults env runstats.zero_Config ]};
     runstats.next_handle := 1;
     runstats.closed := [];
     runstats.written := [];
     runstats.logged := [];
     runstats.spawned := [runstats.GoPing] |}.

(** The point [onNewPoint] makes of the zero snapshot at time [t]. *)
Definition made_point (t : Z) : runstats.Point :=
  {| runstats.pt_name := "go.runtime.host";
     runstats.pt_tags := collector.Tags collector.zero_Fields;
     runstats.pt_fields := collector.Values collector.zero_Fields;
     runstats.pt_time := t |}.

(** The Collector is inside [onNewPoint] with the point made at [t]. *)
Definition calling (t : Z) : runstats.system :=
  {| runstats.sender := sender;
     runstats.loop_at := runstats.AtSelect;
     runstats.flush_due := false;
     runstats.sending := Some (made_point t) |}.

(** The batch loop is writing a batch of one point to the sink. *)
Definition in_flush : runstats.system :=
  {| runstats.sender := runstats.set_points (Some [made_point 1]) sender;
     runstats.loop_at := runstats.InWrite;
     runstats.flush_due := false;
     runstats.sending := None |}.

(** A point is delivered, then the flush ticker fires and the batch loop
    starts writing the batch to the sink. *)
Definition into_flush : list runstats.move :=
  [ runstats.CollectorCalls collector.zero_Fields 1;
    runstats.LoopSelects false;
    runstats.TickerFires;
    runstats.LoopSelects true ].

(** A collector that counts the invocations of its callback, with a
    [Done] channel that is open. *)
Definition counting : collector.Collector nat :=
  {| collector.PauseDur := 1;
     collector.EnableCPU := true;
     collector.EnableMem := true;
     collector.Done := collector.DoneOpen;
     collector.collectStatsCallback := fun _ n => S n |}.

(** Three ticks, each served before the next, then [Done] is closed. *)
Definition three_ticks : list collector.run_move :=
  [ collector.TickElapses; collector.RunSteps true reading;
    collector.RunSteps true reading;
    collector.TickElapses; collector.RunSteps true reading;
    collector.RunSteps true reading;
    collector.TickElapses; collector.RunSteps true reading;
    collector.RunSteps true reading;
    collector.DoneCloses; collector.RunSteps true reading ].

(** A tick elapses and [Done] is closed before [Run] gets to its
    [select]. *)
Definition tick_then_close : list collector.run_move :=
  [ collector.TickElapses; collector.DoneCloses ].

End samples.

(** ** Further definitions *)

(** *** The collector *)

(** The struct tags of [Fields] with the fields they tag, in declaration
    order: the object [encoding/json] makes of a [Fields] in pull mode. *)
Definition tagged_fields (f : collector.Fields) : list (string * collector.value) :=
  [ ("cpu.count", collector.VInt (collector.NumCpu f));
    ("cpu.goroutines", collector.VInt (collector.NumGoroutine f));
    ("cpu.cgo_calls", collector.VInt64 (collector.NumCgoCall f));
    ("mem.alloc", collector.VInt64 (collector.Alloc f));
    ("mem.total", collector.VInt64 (collector.TotalAlloc f));
    ("mem.sys", collector.VInt64 (collector.Sys f));
    ("mem.lookups", collector.VInt64 (collector.Lookups f));
    ("mem.malloc", collector.VInt64 (collector.Mallocs f));
    ("mem.frees", collector.VInt64 (collector.Frees f));
    ("mem.heap.alloc", collector.VInt64 (collector.HeapAlloc f));
    ("mem.heap.sys", collector.VInt64 (collector.HeapSys f));
    ("mem.heap.idle", collector.VInt64 (collector.HeapIdle f));
    ("mem.heap.inuse", collector.VInt64 (collector.HeapInuse f));
    ("mem.heap.released", collector.VInt64 (collector.HeapReleased f));
    ("mem.heap.objects", collector.VInt64 (collector.HeapObjects f));
    ("mem.stack.inuse", collector.VInt64 (collector.StackInuse f));
    ("mem.stack.sys", collector.VInt64 (collector.StackSys f));
    ("mem.stack.mspan_inuse", collector.VInt64 (collector.MSpanInuse f));
    ("mem.stack.mspan_sys", collector.VInt64 (collector.MSpanSys f));
    ("mem.stack.mcache_inuse", collector.VInt64 (collector.MCacheInuse f));
    ("mem.stack.mcache_sys", collector.VInt64 (collector.MCacheSys f));
    ("mem.othersys", collector.VInt64 (collector.OtherSys f));
    ("mem.gc.sys", collector.VInt64 (collector.GCSys f));
    ("mem.gc.next", collector.VInt64 (collector.NextGC f));
    ("mem.gc.last", collector.VInt64 (collector.LastGC f));
    ("mem.gc.pause_total", collector.VInt64 (collector.PauseTotalNs f));
    ("mem.gc.pause", collector.VInt64 (collector.PauseNs f));
    ("mem.gc.count", collector.VInt32 (collector.NumGC f));
    ("mem.gc.cpu_fraction", collector.VFloat64 (collector.GCCPUFraction f)) ]%string.

Definition is_uint64 (x : Z) : Prop := 0 <= x < 2 ^ 64.

(** The [uint64] counters of [MemStats] that [collectMemStats] converts,
    in the order of its assignments, up to [PauseTotalNs]. *)
Definition uint64_counters (m : runtime.MemStats) : list Z :=
  [ runtime.Alloc m; runtime.TotalAlloc m; runtime.Sys m; runtime.Lookups m;
    runtime.Mallocs m; runtime.Frees m;
    runtime.HeapAlloc m; runtime.HeapSys m; runtime.HeapIdle m;
    runtime.HeapInuse m; runtime.HeapReleased m; runtime.HeapObjects m;
    runtime.StackInuse m; runtime.StackSys m; runtime.MSpanInuse m;
    runtime.MSpanSys m; runtime.MCacheInuse m; runtime.MCacheSys m;
    runtime.OtherSys m;
    runtime.GCSys m; runtime.NextGC m; runtime.LastGC m;
    runtime.PauseTotalNs m ].

(** [n] ticks, each one taken by the [select] and its invocation finished
    before the next tick elapses. *)
Definition served (n : nat) (prefer_tick : bool) (rt : runtime.Runtime)
  : list collector.run_move :=
  concat (replicate n [ collector.TickElapses;
                        collector.RunSteps prefer_tick rt;
                        collector.RunSteps prefer_tick rt ]).

(** The snapshots the callback was invoked with, in order. *)
Definition snapshots (tr : list collector.run_event) : list collector.Fields :=
  flat_map (fun e => match e with
                     | collector.EvCall fields => [fields]
                     | _ => []
                     end) tr.

(** The invocations that have returned: all of them, but for the one in
    flight. *)
Definition finished {W : Type} (st : collector.run_state W) : list collector.Fields :=
  match collector.run_at st with
  | collector.RunCallback _ => removelast (snapshots (collector.trace st))
  | _ => snapshots (collector.trace st)
  end.

(** *** The sender *)

Definition bp_config (cfg : runstats.Config) : runstats.BatchPointsConfig :=
  {| runstats.bp_Database := runstats.Database cfg;
     runstats.bp_Precision := runstats.Precision cfg;
     runstats.bp_RetentionPolicy := runstats.RetentionPolicy cfg |}.

(** The points the sink has accepted so far, in order. *)
Definition delivered (w : runstats.world) : list runstats.Point :=
  concat (runstats.written w).*2.

(** The client handles are sound: the sender's client is a handle that was
    handed out and has not been closed, and no handle was closed twice. *)
Definition handles_sound (r : runstats.statsSender) (w : runstats.world) : Prop :=
  exists h,
    runstats.client r = Some h
    /\ (h < runstats.next_handle w)%nat
    /\ (h ∉ runstats.closed w)
    /\ Forall (fun x => (x < runstats.next_handle w)%nat) (runstats.closed w)
    /\ NoDup (runstats.closed w).

(** The number of ticks at which the health check finds the sink back:
    answered pings that follow at least one failed ping. *)
Fixpoint recoveries (degraded : bool) (ticks : list runstats.ping_tick) : nat :=
  match ticks with
  | [] => 0
  | tick :: ticks =>
    match runstats.ping tick with
    | Some _ => recoveries true ticks
    | None =>
      if degraded then S (recoveries false ticks) else recoveries false ticks
    end
  end.

(** The points that are somewhere between [onNewPoint] and the sink, in
    order of age: those the sink has accepted, the batch, and the point
    [onNewPoint] is blocked with. *)
Definition in_pipeline (s : runstats.system) (w : runstats.world)
  : list runstats.Point :=
  delivered w
  ++ default [] (runstats.points (runstats.sender s))
  ++ option_list (runstats.sending s).

(** The sender is as [newStatsSender] makes it, and the batch constructor
    accepts the configuration it points to. *)
Definition pipeline_ready (env : runstats.Env) (s : runstats.system)
           (w : runstats.world) : Prop :=
  exists batch h lg cfg,
    runstats.points (runstats.sender s) = Some batch
    /\ runstats.client (runstats.sender s) = Some h
    /\ runstats.logger (runstats.sender s) = Some lg
    /\ runstats.heap w !! runstats.config (runstats.sender s) = Some cfg
    /\ runstats.NewBatchPoints env (bp_config cfg) = None.

(** [pt] is a point of the snapshot and time of one of the calls in [ms]. *)
Definition made_by (ms : list runstats.move) (pt : runstats.Point) : Prop :=
  exists fields now,
    In (runstats.CollectorCalls fields now) ms
    /\ runstats.pt_tags pt = collector.Tags fields
    /\ runstats.pt_fields pt = collector.Values fields
    /\ runstats.pt_time pt = now.

(** ** Package expvar (pull mode, registration) *)

Module expvar.

(** A published variable: the function expvar calls to render it, here
    on one reading of the runtime. *)
Definition Func : Type := runtime.Runtime -> outcome influxdb.Point.

(** [expvar.Publish] of the standard library on its registry of variables:
    publishing a name a second time panics ([None]). *)
Definition Publish (name : string) (v : Func) (vars : gmap string Func)
  : option (gmap string Func) :=
  match vars !! name with
  | Some _ => None
  | None => Some (<[name := v]> vars)
  end.

Definition defaultMeasurement : string := "go_runtime_metrics".

(** [func init()]; [arg0] is [os.Args[0]]. *)
Definition init (arg0 : string) (vars : gmap string Func)
  : option (gmap string Func) :=
  Publish arg0 (influxdb.Metrics defaultMeasurement) vars.

End expvar.

(** ** Further sample inputs *)

Module inputs.

(** A client library whose [NewBatchPoints] refuses every precision. *)
Definition strict_env : runstats.Env :=
  {| runstats.NewHTTPClient := fun _ => None;
     runstats.NewBatchPoints := fun _ => Some "unknown precision"%string;
     runstats.NewPoint := fun _ _ _ _ => None;
     runstats.Hostname := None |}.

(** A client library whose [NewPoint] refuses every field set. *)
Definition no_point_env : runstats.Env :=
  {| runstats.NewHTTPClient := fun _ => None;
     runstats.NewBatchPoints := fun _ => None;
     runstats.NewPoint := fun _ _ _ _ => Some "max key length exceeded"%string;
     runstats.Hostname := Some "host"%string |}.

(** The server answers the creation of the database with an error. *)
Definition rejecting : runstats.startup :=
  {| runstats.ping_answer := None;
     runstats.create_database_answer :=
       runstats.QueryRejected "not authorized"%string |}.

(** [&Config{BatchInterval: -1}] *)
Definition negative_batch_interval : runstats.Config :=
  {| runstats.Addr := ""; runstats.Database := ""; runstats.Username := "";
     runstats.Password := ""; runstats.Measurement := "";
     runstats.RetentionPolicy := "";
     runstats.BatchInterval := -1; runstats.PingInterval := 0;
     runstats.Precision := "";
     runstats.CollectionInterval := 0;
     runstats.DisableCpu := false; runstats.DisableMem := false;
     runstats.Logger := None |}.

End inputs.

(** * Properties *)

(** ** Machine integers *)

Lemma uint32_mod_256 (x : Z) : uint32 x mod 256 = x mod 256.
Proof.
  unfold uint32, wrap_unsigned.
  apply Z.mod_mod_divide. exists (2 ^ 24). reflexivity.
Qed.

Lemma uint32_range (x : Z) : is_uint32 (uint32 x).
Proof. unfold is_uint32, uint32, wrap_unsigned. apply Z.mod_pos_bound. lia. Qed.

Lemma mem_stats_well_typed : runtime.well_typed samples.mem_stats.
Proof. split; [reflexivity | unfold is_uint32; cbn; lia]. Defined.

(** ** The pause ring buffer *)

Section PauseRing.
Import runtime collector.

Lemma pause_index_range (m : MemStats) : 0 <= pause_index m < 256.
Proof. unfold pause_index. apply Z.mod_pos_bound. lia. Qed.

Lemma pause_index_previous (m : MemStats) :
  pause_index m = (runtime.NumGC m - 1) mod 256.
Proof.
  unfold pause_index. rewrite uint32_mod_256.
  replace (runtime.NumGC m + 255) with (runtime.NumGC m - 1 + 1 * 256) by lia.
  apply Z.mod_add. lia.
Qed.

Lemma pause_index_lookup (m : MemStats) :
  length (runtime.PauseNs m) = 256%nat ->
  is_Some (runtime.PauseNs m !! Z.to_nat (pause_index m)).
Proof.
  intros Hlen. apply lookup_lt_is_Some.
  pose proof (pause_index_range m). lia.
Qed.

Lemma gc_cycle_well_typed (pause : Z) (m : MemStats) :
  well_typed m -> well_typed (gc_cycle pause m).
Proof.
  intros [Hlen _]. split; cbn.
  - rewrite length_insert. exact Hlen.
  - apply uint32_range.
Qed.

Lemma pause_index_gc_cycle (pause : Z) (m : MemStats) :
  pause_index (gc_cycle pause m) = runtime.NumGC m mod 256.
Proof.
  rewrite pause_index_previous. cbn.
  rewrite <- Zminus_mod_idemp_l, uint32_mod_256, Zminus_mod_idemp_l.
  f_equal. lia.
Qed.

Lemma gc_cycle_latest (pause : Z) (m : MemStats) :
  length (runtime.PauseNs m) = 256%nat ->
  runtime.PauseNs (gc_cycle pause m)
    !! Z.to_nat (pause_index (gc_cycle pause m)) = Some pause.
Proof.
  intros Hlen. rewrite pause_index_gc_cycle. cbn.
  apply list_lookup_insert_eq.
  pose proof (Z.mod_pos_bound (runtime.NumGC m) 256). lia.
Qed.

End PauseRing.

(** ** Snapshots *)

Section Snapshot.
Import runtime collector.

Lemma collectMemStats_ok (rt : Runtime) (f : Fields) :
  length (runtime.PauseNs (ReadMemStats rt)) = 256%nat ->
  exists g, collectMemStats rt f = Ok g
            /\ cpu_fields g = cpu_fields f
            /\ env_fields g = env_fields f.
Proof.
  intros Hlen. unfold collectMemStats.
  destruct (pause_index_lookup _ Hlen) as [pause ->].
  eexists. split; [reflexivity |]. split; reflexivity.
Qed.

Lemma collectMemStats_mem (rt : Runtime) (f f' g g' : Fields) :
  collectMemStats rt f = Ok g -> collectMemStats rt f' = Ok g' ->
  mem_fields g = mem_fields g'.
Proof.
  unfold collectMemStats.
  destruct (runtime.PauseNs _ !! _); [| discriminate].
  intros [= <-] [= <-]. reflexivity.
Qed.

Lemma collectCPUStats_fields (rt : Runtime) (f : Fields) :
  cpu_fields (collectCPUStats rt f)
    = [ NumCPU rt; runtime.NumGoroutine rt; runtime.NumCgoCall rt ]
  /\ mem_fields (collectCPUStats rt f) = mem_fields f
  /\ env_fields (collectCPUStats rt f) = env_fields f.
Proof. repeat split. Qed.

Lemma set_environment_fields (rt : Runtime) (f : Fields) :
  cpu_fields (set_environment rt f) = cpu_fields f
  /\ mem_fields (set_environment rt f) = mem_fields f
  /\ env_fields (set_environment rt f)
     = [ GOOS rt; GOARCH rt; runtime.Version rt ].
Proof. repeat split. Qed.

Lemma CollectStats_environment {W : Type} (c : Collector W) (rt : Runtime) :
  length (runtime.PauseNs (ReadMemStats rt)) = 256%nat ->
  exists f, CollectStats c rt = Ok f
            /\ env_fields f = [ GOOS rt; GOARCH rt; runtime.Version rt ].
Proof.
  intros Hlen. unfold CollectStats.
  destruct (EnableMem c).
  - destruct (collectMemStats_ok rt zero_Fields Hlen) as (g & -> & _).
    eexists. split; reflexivity.
  - eexists. split; reflexivity.
Qed.

Ltac listed :=
  first [ apply list_elem_of_here | apply list_elem_of_further; listed ].

Lemma Tags_dom (f : Fields) :
  dom (Tags f) = ({[ "go.os"; "go.arch"; "go.version" ]} : gset string)%string.
Proof. unfold Tags. rewrite dom_list_to_map_L. cbn. set_solver. Qed.

Lemma Values_dom (f : Fields) :
  dom (Values f) = list_to_set json_tags.
Proof.
  unfold Values. rewrite dom_list_to_map_L. cbn [fmap list_fmap fst].
  apply set_eq. intros k. rewrite !elem_of_list_to_set.
  split; revert k; apply Forall_forall; unfold json_tags;
    repeat (apply List.Forall_cons; [listed |]); apply List.Forall_nil.
Qed.

End Snapshot.

(** ** Snapshots, the pause index and the rendered point *)

Section CollectorClaims.
Import runtime collector.

(** C6. [CollectStats] with [EnableCPU] false leaves the CPU fields at
    zero and with [EnableMem] false leaves the memory fields at zero; the
    other group is collected as usual: the CPU fields are the runtime's
    counters and the memory fields are those [collectMemStats] produces,
    whatever the other flag is. *)
Theorem CollectStats_disabled_group_zero (W : Type) (c : Collector W) (rt : Runtime) :
  well_typed (ReadMemStats rt) ->
  exists f, CollectStats c rt = Ok f
    /\ (EnableCPU c = false -> cpu_fields f = [0; 0; 0])
    /\ (EnableCPU c = true ->
          cpu_fields f = [ NumCPU rt; runtime.NumGoroutine rt; runtime.NumCgoCall rt ])
    /\ (EnableMem c = false -> mem_fields f = (replicate 25 0, 0))
    /\ (EnableMem c = true ->
          exists g, collectMemStats rt zero_Fields = Ok g
                    /\ mem_fields f = mem_fields g)
    /\ env_fields f = [ GOOS rt; GOARCH rt; runtime.Version rt ].
Proof.
  intros [Hlen _].
  destruct (collectMemStats_ok rt zero_Fields Hlen) as (g & Hg & Hcpu & _).
  unfold CollectStats.
  destruct (EnableMem c) eqn:Emem, (EnableCPU c) eqn:Ecpu; cbn;
    rewrite ?Hg; cbn; eexists; (split; [reflexivity |]);
    repeat split; try discriminate; intros _;
    try (exists g; split; reflexivity);
    try exact Hcpu.
Qed.

Lemma CollectStats_disabled_group_zero_witness :
  well_typed (ReadMemStats samples.reading)
  /\ exists f, CollectStats samples.no_cpu samples.reading = Ok f
               /\ cpu_fields f = [0; 0; 0]
               /\ Sys f = 65536.
Proof.
  split; [exact mem_stats_well_typed |].
  destruct (CollectStats_disabled_group_zero unit samples.no_cpu samples.reading
              mem_stats_well_typed) as (f & Hf & Hcpu & _).
  exists f. split; [exact Hf |]. split; [apply Hcpu; reflexivity |].
  vm_compute in Hf. injection Hf as <-. reflexivity.
Defined.

(** C10. For every [uint32] value of [NumGC] the index
    [(NumGC+255)%256] lies inside the 256-entry array [PauseNs], so
    [collectMemStats] does not fault; the index is that of the previous
    cycle, [(NumGC-1) mod 256], and after the runtime has recorded a
    cycle the field [PauseNs] is the pause of that cycle. *)
Theorem pause_index_in_bounds_and_latest (rt : Runtime) (f : Fields) :
  well_typed (ReadMemStats rt) ->
  0 <= pause_index (ReadMemStats rt) < 256
  /\ pause_index (ReadMemStats rt) = (runtime.NumGC (ReadMemStats rt) - 1) mod 256
  /\ (exists g, collectMemStats rt f = Ok g)
  /\ (forall m0 pause g,
        well_typed m0 -> ReadMemStats rt = gc_cycle pause m0 ->
        collectMemStats rt f = Ok g -> PauseNs g = int64 pause).
Proof.
  intros [Hlen _]. split; [apply pause_index_range |].
  split; [apply pause_index_previous |]. split.
  - destruct (collectMemStats_ok rt f Hlen) as (g & Hg & _). eauto.
  - intros m0 pause g [Hlen0 _] Hm. unfold collectMemStats.
    rewrite Hm, (gc_cycle_latest pause m0 Hlen0).
    intros [= <-]. reflexivity.
Qed.

Lemma pause_index_in_bounds_and_latest_witness :
  well_typed (ReadMemStats samples.reading)
  /\ pause_index (ReadMemStats samples.reading) = 2
  /\ exists g, collectMemStats samples.reading zero_Fields = Ok g.
Proof.
  split; [exact mem_stats_well_typed |].
  destruct (pause_index_in_bounds_and_latest samples.reading zero_Fields
              mem_stats_well_typed) as (_ & Hidx & Hok & _).
  split; [rewrite Hidx; reflexivity | exact Hok].
Defined.

(** C7. Every call of the pull-mode render function returns a point
    named as requested whose tags are exactly [go.os], [go.arch] and
    [go.version], holding the runtime's OS, architecture and version,
    and whose values have exactly the documented keys, among them
    [cpu.goroutines], [mem.lookups] and [mem.gc.count]. *)
Theorem Metrics_tags_and_value_keys (measurement : string) (rt : Runtime) :
  well_typed (ReadMemStats rt) ->
  exists p, influxdb.Metrics measurement rt = Ok p
    /\ influxdb.Name p = measurement
    /\ dom (influxdb.Tags p)
       = ({[ "go.os"; "go.arch"; "go.version" ]} : gset string)%string
    /\ influxdb.Tags p !! "go.os"%string = Some (GOOS rt)
    /\ influxdb.Tags p !! "go.arch"%string = Some (GOARCH rt)
    /\ influxdb.Tags p !! "go.version"%string = Some (runtime.Version rt)
    /\ dom (Values (influxdb.Values p)) = list_to_set json_tags
    /\ Forall (fun k => is_Some (Values (influxdb.Values p) !! k)) json_tags
    /\ Forall (fun k => k ∈ json_tags)
         [ "cpu.goroutines"; "mem.lookups"; "mem.gc.count" ]%string.
Proof.
  intros [Hlen _]. unfold influxdb.Metrics.
  destruct (CollectStats_environment (W := unit) (New None) rt Hlen)
    as (f & Hf & Henv).
  rewrite Hf. exists {| influxdb.Name := measurement;
                        influxdb.Tags := Tags f;
                        influxdb.Values := f |}.
  split; [reflexivity |].
  cbn [influxdb.Name influxdb.Tags influxdb.Values].
  injection Henv as Hos Harch Hver.
  split; [reflexivity |]. split; [apply Tags_dom |].
  rewrite <- Hos, <- Harch, <- Hver.
  split; [reflexivity |]. split; [reflexivity |]. split; [reflexivity |].
  split; [apply Values_dom |]. split.
  - apply Forall_forall. intros k Hk. apply elem_of_dom.
    rewrite Values_dom. apply elem_of_list_to_set. exact Hk.
  - repeat constructor; unfold json_tags; rewrite !elem_of_cons; tauto.
Qed.

Lemma Metrics_tags_and_value_keys_witness :
  well_typed (ReadMemStats samples.reading)
  /\ exists p, influxdb.Metrics "go_runtime_metrics" samples.reading = Ok p
               /\ influxdb.Tags p !! "go.os"%string = Some "linux"%string.
Proof.
  split; [exact mem_stats_well_typed |].
  destruct (Metrics_tags_and_value_keys "go_runtime_metrics" samples.reading
              mem_stats_well_typed) as (p & Hp & _ & _ & Hos & _).
  exists p. split; [exact Hp | exact Hos].
Defined.

End CollectorClaims.

(** ** The state and panic monad *)

Lemma bind_Ok {S A B : Type} (m : M S A) (k : A -> M S B) (s s' : S) (a : A) :
  m s = Ok (a, s') -> (m ≫= k) s = k a s'.
Proof. intros H. unfold mbind, M_bind. rewrite H. reflexivity. Qed.

Lemma bind_Panic {S A B : Type} (m : M S A) (k : A -> M S B) (s : S) (p : panic) :
  m s = Panic p -> (m ≫= k) s = Panic p.
Proof. intros H. unfold mbind, M_bind. rewrite H. reflexivity. Qed.

(** Unfolds the monad down to matches on the store. *)
Ltac run_monad :=
  unfold mbind, M_bind, mret, M_ret, modify, throw in *; cbn.

(** ** Configuration *)

Section Configuration.

Lemma defaults_positive (env : runstats.Env) (c : runstats.Config) :
  runstats.durations_nonnegative c ->
  runstats.durations_positive (runstats.defaults env c).
Proof.
  intros (Hc & Hb & Hp). unfold runstats.durations_positive. cbn.
  repeat split.
  - destruct (Z.eqb_spec (runstats.CollectionInterval c) 0); [reflexivity | lia].
  - destruct (Z.eqb_spec (runstats.BatchInterval c) 0); [reflexivity | lia].
  - destruct (Z.eqb_spec (runstats.PingInterval c) 0); [reflexivity | lia].
Qed.

Lemma defaults2_positive (hostname : option string) (c : metrics.Config) :
  0 <= metrics.CollectionInterval c ->
  metrics.durations_positive (metrics.defaults hostname c).
Proof.
  intros Hc. unfold metrics.durations_positive. cbn. split.
  - destruct (Z.eqb_spec (metrics.CollectionInterval c) 0); [reflexivity | lia].
  - destruct (N.eqb_spec (metrics.FlushInterval c) 0); [reflexivity | lia].
Qed.

Lemma init_non_nil (env : runstats.Env) (l : nat) (c : runstats.Config)
      (w : runstats.world) :
  runstats.heap w !! l = Some c ->
  runstats.init env (Some l) w
  = Ok (tt, runstats.set_heap (<[l := runstats.defaults env c]> (runstats.heap w)) w).
Proof.
  intros Hl. unfold runstats.init.
  rewrite (bind_Ok _ _ w w l) by reflexivity.
  rewrite (bind_Ok _ _ w w c) by (unfold runstats.deref; rewrite Hl; reflexivity).
  reflexivity.
Qed.

Lemma init2_non_nil (hostname : option string) (l : nat) (c : metrics.Config)
      (w : metrics.world) :
  metrics.heap w !! l = Some c ->
  metrics.init hostname (Some l) w
  = Ok (tt, {| metrics.heap := <[l := metrics.defaults hostname c]> (metrics.heap w);
               metrics.handed_over := metrics.handed_over w;
               metrics.spawned := metrics.spawned w |}).
Proof.
  intros Hl. unfold metrics.init.
  rewrite (bind_Ok _ _ w w c) by (unfold metrics.deref; rewrite Hl; reflexivity).
  reflexivity.
Qed.

(** The nil guard of the v1 [init] fills a fresh [Config] that the caller
    never sees. *)
Lemma init_nil (env : runstats.Env) (w : runstats.world) :
  let l := fresh (dom (runstats.heap w)) in
  runstats.heap w !! l = None
  /\ runstats.init env None w
     = Ok (tt, runstats.set_heap
                 (<[l := runstats.defaults env runstats.zero_Config]>
                    (runstats.heap w)) w).
Proof.
  intros l. split.
  - apply not_elem_of_dom. apply is_fresh.
  - unfold runstats.init.
    rewrite (bind_Ok _ _ w
               (runstats.set_heap (<[l := runstats.zero_Config]> (runstats.heap w)) w) l)
      by reflexivity.
    rewrite (bind_Ok _ _ _
               (runstats.set_heap (<[l := runstats.zero_Config]> (runstats.heap w)) w)
               runstats.zero_Config).
    + unfold runstats.store, modify, runstats.set_heap. cbn.
      rewrite insert_insert_eq. reflexivity.
    + unfold runstats.deref. cbn. rewrite lookup_insert_eq. reflexivity.
Qed.

(** C3 (as amended). When no duration field of the configuration is
    negative, [init] leaves every duration field strictly positive: the
    collection, batch and ping intervals of v1, the collection and flush
    intervals of v2. *)
Theorem init_durations_positive
        (env : runstats.Env) (l1 : nat) (c1 : runstats.Config) (w1 : runstats.world)
        (l2 : nat) (c2 : metrics.Config) (w2 : metrics.world) :
  runstats.heap w1 !! l1 = Some c1 ->
  runstats.durations_nonnegative c1 ->
  metrics.heap w2 !! l2 = Some c2 ->
  0 <= metrics.CollectionInterval c2 ->
  (exists w1' c1',
      runstats.init env (Some l1) w1 = Ok (tt, w1')
      /\ runstats.heap w1' !! l1 = Some c1'
      /\ runstats.durations_positive c1')
  /\ (exists w2' c2',
         metrics.init (runstats.Hostname env) (Some l2) w2 = Ok (tt, w2')
         /\ metrics.heap w2' !! l2 = Some c2'
         /\ metrics.durations_positive c2').
Proof.
  intros H1 Hnn1 H2 Hnn2. split.
  - eexists _, _. split; [apply (init_non_nil env l1 c1 w1 H1) |].
    split; [cbn; apply lookup_insert_eq |].
    apply defaults_positive, Hnn1.
  - eexists _, _. split; [apply (init2_non_nil _ l2 c2 w2 H2) |].
    split; [cbn; apply lookup_insert_eq |].
    apply defaults2_positive, Hnn2.
Qed.

Lemma init_durations_positive_witness :
  exists w1' c1',
    runstats.init samples.env (Some 0%nat) (samples.world_with runstats.zero_Config)
    = Ok (tt, w1')
    /\ runstats.heap w1' !! 0%nat = Some c1'
    /\ runstats.durations_positive c1'.
Proof.
  refine (proj1 (init_durations_positive samples.env
                   0 runstats.zero_Config (samples.world_with runstats.zero_Config)
                   0 samples.zero_Config2 (samples.world2_with samples.zero_Config2)
                   _ _ _ _)).
  - reflexivity.
  - unfold runstats.durations_nonnegative. cbn. lia.
  - reflexivity.
  - cbn. lia.
Defined.

(** C3 (as stated) fails: [init] replaces a zero interval only, so a
    negative collection interval survives it. *)
Lemma init_keeps_negative_interval :
  exists w' c',
    runstats.init samples.env (Some 0%nat) (samples.world_with samples.negative_interval)
    = Ok (tt, w')
    /\ runstats.heap w' !! 0%nat = Some c'
    /\ runstats.CollectionInterval c' = -1
    /\ ~ runstats.durations_positive c'.
Proof.
  eexists _, _. split; [apply init_non_nil; reflexivity |].
  split; [cbn; apply lookup_insert_eq |].
  split; [reflexivity |].
  unfold runstats.durations_positive. cbn. lia.
Qed.

(** C9. [RunCollector] called with a nil configuration panics with a
    nil dereference, in both versions.  In v1 [init] itself returns (its
    nil guard fills a fresh [Config] at a location the caller does not
    hold) and the panic comes when [newStatsSender] reads through the
    caller's nil pointer; in v2 [init] panics at its nil guard. *)
Theorem RunCollector_nil_config_panics
        (env : runstats.Env) (net : runstats.startup) (w1 : runstats.world)
        (hostname : option string) (w2 : metrics.world) :
  runstats.RunCollector env net None w1 = Panic NilDereference
  /\ (exists w1', runstats.init env None w1 = Ok (tt, w1')
                  /\ runstats.heap w1' !! fresh (dom (runstats.heap w1))
                     = Some (runstats.defaults env runstats.zero_Config)
                  /\ runstats.heap w1 !! fresh (dom (runstats.heap w1)) = None)
  /\ metrics.RunCollector hostname None w2 = Panic NilDereference
  /\ metrics.init hostname None w2 = Panic NilDereference.
Proof.
  destruct (init_nil env w1) as [Hfresh Hinit]. split; [| split; [| split]].
  - unfold runstats.RunCollector.
    rewrite (bind_Ok _ _ _ _ _ Hinit).
    apply bind_Panic. unfold runstats.newStatsSender.
    apply bind_Panic. reflexivity.
  - eexists. split; [exact Hinit |]. split; [| exact Hfresh].
    cbn. apply lookup_insert_eq.
  - unfold metrics.RunCollector. apply bind_Panic. reflexivity.
  - reflexivity.
Qed.

End Configuration.

(** ** The batch loop *)

Section BatchLoop.
Import runstats.

Variable env : Env.

Lemma receive_points (pt : Point) (r : statsSender) (batch : list Point) :
  points r = Some batch ->
  points (receive pt r) = Some (batch ++ [pt])
  /\ client (receive pt r) = client r
  /\ logger (receive pt r) = logger r
  /\ config (receive pt r) = config r.
Proof. intros H. unfold receive. rewrite H. repeat split. Qed.

(** A refused write changes neither the batch nor what the sink holds. *)
Lemma failed_flush_retains (err : error) (r : statsSender) (w : world)
      (batch : list Point) (h : nat) (lg : logger_value) :
  points r = Some batch -> client r = Some h -> logger r = Some lg ->
  exists w', loop_turn env (FlushTick (Some err)) r w = Ok (r, w')
             /\ heap w' = heap w /\ written w' = written w.
Proof.
  intros Hp Hc Hl. unfold loop_turn, flush_begin. rewrite Hp.
  destruct batch as [| pt batch].
  - exists w. repeat split.
  - unfold flush_end. rewrite Hc, Hp, Hl. cbn. eexists. repeat split.
Qed.

Lemma failing_turns (evs : list loop_event) :
  forall (r : statsSender) (w : world) (batch : list Point) (h : nat) (lg : logger_value),
    points r = Some batch -> client r = Some h -> logger r = Some lg ->
    Forall no_success evs ->
    exists r' w',
      loop_turns env evs r w = Ok (r', w')
      /\ points r' = Some (batch ++ arrivals evs)
      /\ client r' = Some h /\ logger r' = Some lg /\ config r' = config r
      /\ heap w' = heap w /\ written w' = written w.
Proof.
  induction evs as [| ev evs IH]; intros r w batch h lg Hp Hc Hl Hall.
  - exists r, w. cbn. rewrite app_nil_r. repeat split; assumption.
  - apply Forall_cons in Hall as [Hev Hall]. cbn [loop_turns].
    destruct ev as [[err |] | pt]; [| contradiction |].
    + destruct (failed_flush_retains err r w batch h lg Hp Hc Hl)
        as (w1 & Hturn & Hheap & Hwr).
      rewrite (bind_Ok _ _ _ _ _ Hturn).
      destruct (IH r w1 batch h lg Hp Hc Hl Hall)
        as (r' & w' & Hrun & Hp' & Hc' & Hl' & Hcfg & Hheap' & Hwr').
      exists r', w'. cbn [arrivals flat_map app].
      repeat split; try assumption; congruence.
    + destruct (receive_points pt r batch Hp) as (Hp1 & Hc1 & Hl1 & Hcfg1).
      rewrite (bind_Ok _ _ w w (receive pt r)) by reflexivity.
      rewrite <- Hc1 in Hc. rewrite <- Hl1 in Hl.
      destruct (IH (receive pt r) w (batch ++ [pt]) h lg Hp1 Hc Hl Hall)
        as (r' & w' & Hrun & Hp' & Hc' & Hl' & Hcfg & Hheap' & Hwr').
      exists r', w'. cbn [arrivals flat_map].
      rewrite <- app_assoc in Hp'.
      repeat split; try assumption; congruence.
Qed.

(** An accepted write delivers the whole batch, once. *)
Lemma successful_flush_delivers (r : statsSender) (w : world)
      (pt : Point) (batch : list Point) (h : nat) (lg : logger_value) (cfg : Config) :
  points r = Some (pt :: batch) -> client r = Some h -> logger r = Some lg ->
  heap w !! config r = Some cfg ->
  exists r' w', loop_turn env (FlushTick None) r w = Ok (r', w')
                /\ written w' = written w ++ [(h, pt :: batch)].
Proof.
  intros Hp Hc Hl Hcfg.
  unfold loop_turn, flush_begin, flush_end, newBatch, deref, accept_batch,
    Println, log_line.
  rewrite Hp, Hc, Hl. run_monad. rewrite Hcfg.
  destruct (NewBatchPoints env _) as [err |]; cbn;
    eexists _, _; split; reflexivity.
Qed.

Lemma loop_turns_app (evs1 evs2 : list loop_event) (r : statsSender) (w : world) :
  loop_turns env (evs1 ++ evs2) r w
  = match loop_turns env evs1 r w with
    | Ok (r', w') => loop_turns env evs2 r' w'
    | Panic p => Panic p
    end.
Proof.
  revert r w. induction evs1 as [| ev evs1 IH]; intros r w; [reflexivity |].
  cbn [loop_turns app]. unfold mbind, M_bind.
  destruct (loop_turn env ev r w) as [[r' w'] | p]; [apply IH | reflexivity].
Qed.

Lemma loop_positive_interval (interval : Z) (evs : list loop_event)
      (r : statsSender) (w : world) :
  0 < interval -> loop env interval evs r w = loop_turns env evs r w.
Proof.
  intros Hpos. unfold loop, NewTicker.
  destruct (Z.leb_spec interval 0); [lia | reflexivity].
Qed.

(** C1. From a sender holding a batch, let points arrive and flushes be
    refused by the sink in any order and number: the batch is retained
    and grows by every point that arrived, nothing is written; and the
    first flush the sink accepts then writes that whole batch, in order,
    in one piece (and writes nothing when no point is there). *)
Theorem failed_flushes_lose_no_point
        (interval : Z) (evs : list loop_event) (r : statsSender) (w : world)
        (batch0 : list Point) (h : nat) (lg : logger_value) (cfg : Config) :
  0 < interval ->
  points r = Some batch0 -> client r = Some h -> logger r = Some lg ->
  heap w !! config r = Some cfg ->
  Forall no_success evs ->
  (exists r1 w1,
      loop env interval evs r w = Ok (r1, w1)
      /\ points r1 = Some (batch0 ++ arrivals evs)
      /\ written w1 = written w)
  /\ (exists r2 w2,
         loop env interval (evs ++ [FlushTick None]) r w = Ok (r2, w2)
         /\ written w2
            = written w ++ match batch0 ++ arrivals evs with
                           | [] => []
                           | batch => [(h, batch)]
                           end).
Proof.
  intros Hpos Hp Hc Hl Hcfg Hall.
  rewrite !loop_positive_interval by exact Hpos.
  destruct (failing_turns evs r w batch0 h lg Hp Hc Hl Hall)
    as (r1 & w1 & Hrun & Hp1 & Hc1 & Hl1 & Hcfg1 & Hheap1 & Hwr1).
  split; [exists r1, w1; auto |].
  rewrite loop_turns_app, Hrun. cbn [loop_turns].
  destruct (batch0 ++ arrivals evs) as [| pt batch] eqn:Hbatch.
  - exists r1, w1. split.
    + unfold loop_turn, flush_begin. rewrite Hp1. reflexivity.
    + rewrite app_nil_r. exact Hwr1.
  - rewrite <- Hcfg1, <- Hheap1 in Hcfg.
    destruct (successful_flush_delivers r1 w1 pt batch h lg cfg Hp1 Hc1 Hl1 Hcfg)
      as (r2 & w2 & Hturn & Hwr2).
    exists r2, w2. split.
    + rewrite (bind_Ok _ _ _ _ _ Hturn). reflexivity.
    + rewrite Hwr2, Hwr1. reflexivity.
Qed.

End BatchLoop.

Lemma failed_flushes_lose_no_point_witness :
  exists r2 w2,
    runstats.loop samples.env 60
      (samples.two_failed_flushes ++ [runstats.FlushTick None])
      samples.sender (samples.world_with runstats.zero_Config) = Ok (r2, w2)
    /\ runstats.written w2 = [(0%nat, [samples.point 1; samples.point 2])].
Proof.
  refine (proj2 (failed_flushes_lose_no_point samples.env 60
                   samples.two_failed_flushes samples.sender
                   (samples.world_with runstats.zero_Config)
                   [] 0%nat runstats.DefaultLogger runstats.zero_Config
                   _ _ _ _ _ _)).
  - lia.
  - reflexivity.
  - reflexivity.
  - reflexivity.
  - reflexivity.
  - repeat constructor.
Defined.

(** ** Start-up *)

Section Startup.
Import runstats.

Variable env : Env.

(** The answer to the ping has no part in what [newClient] returns. *)
Lemma newClient_ignores_ping (conf : HTTPConfig) (ping : option error) (w : world) :
  newClient env conf ping w = newClient env conf None w.
Proof. unfold newClient. destruct (NewHTTPClient env conf); reflexivity. Qed.

Lemma newStatsSender_ignores_ping (net : startup) (config : option nat) (w : world) :
  newStatsSender env net config w
  = newStatsSender env {| ping_answer := None;
                          create_database_answer := create_database_answer net |}
                   config w.
Proof.
  unfold newStatsSender, mbind, M_bind.
  destruct (deref config w) as [[cfg w0] | p]; [| reflexivity].
  cbn [ping_answer create_database_answer].
  rewrite newClient_ignores_ping. reflexivity.
Qed.

(** A refused constructor is reported and nothing is started. *)
Lemma RunCollector_reports_constructor_error
      (net : startup) (l : nat) (c : Config) (w : world) (err : error) :
  heap w !! l = Some c ->
  NewHTTPClient env (http_config (defaults env c)) = Some err ->
  exists w',
    RunCollector env net (Some l) w
    = Ok (Some (Wrap err "failed to create influxDB client"), w')
    /\ spawned w' = spawned w /\ next_handle w' = next_handle w.
Proof.
  intros Hl Herr. unfold RunCollector.
  rewrite (bind_Ok _ _ _ _ _ (init_non_nil env l c w Hl)).
  unfold newStatsSender, newClient, deref. run_monad.
  rewrite lookup_insert_eq, Herr. cbn.
  eexists. repeat split.
Qed.

(** Once the constructors accept the configuration, [RunCollector]
    returns nil and starts the three goroutines, whatever the network
    answers to the ping and to the creation of the database. *)
Lemma RunCollector_starts
      (net : startup) (l : nat) (c : Config) (w : world) :
  heap w !! l = Some c ->
  let cfg := defaults env c in
  NewHTTPClient env (http_config cfg) = None ->
  NewBatchPoints env {| bp_Database := Database cfg;
                        bp_Precision := Precision cfg;
                        bp_RetentionPolicy := RetentionPolicy cfg |} = None ->
  exists w',
    RunCollector env net (Some l) w = Ok (None, w')
    /\ spawned w'
       = spawned w ++ [ GoPing; GoLoop (BatchInterval cfg);
                        GoRun (CollectionInterval cfg)
                              (negb (DisableCpu cfg)) (negb (DisableMem cfg)) ]
    /\ closed w' = closed w.
Proof.
  intros Hl cfg. subst cfg.
  assert (HLogger : exists lg, Logger (defaults env c) = Some lg).
  { cbn. destruct (Logger c); eauto. }
  destruct HLogger as [lg Hlg].
  remember (defaults env c) as cfg eqn:Hcfg.
  intros Hclient Hbatch. unfold RunCollector.
  rewrite (bind_Ok _ _ _ _ _ (init_non_nil env l c w Hl)). rewrite <- Hcfg.
  unfold newStatsSender, newClient, newBatch, deref, new_handle, queryDB, go,
    Println, log_line.
  run_monad. rewrite lookup_insert_eq, Hclient. cbn. rewrite Hlg.
  destruct (create_database_answer net) as [e | e |]; cbn;
    rewrite lookup_insert_eq, Hbatch; cbn;
    rewrite lookup_insert_eq; cbn;
    eexists; (split; [reflexivity |]); cbn;
    rewrite <- !app_assoc; split; reflexivity.
Qed.

End Startup.

(** C2 (code at the failing input). [RunCollector] returns the same
    whatever the initial ping answers; with the default configuration and
    no server listening it returns a nil error and has started the ping
    loop, the batch loop and the collector. *)
Theorem RunCollector_swallows_ping_failure :
  (forall env net config w,
      runstats.RunCollector env net config w
      = runstats.RunCollector env
          {| runstats.ping_answer := None;
             runstats.create_database_answer :=
               runstats.create_database_answer net |} config w)
  /\ exists w',
      runstats.RunCollector samples.env samples.unreachable (Some 0%nat)
        (samples.world_with runstats.zero_Config) = Ok (None, w')
      /\ runstats.spawned w'
         = [ runstats.GoPing;
             runstats.GoLoop (collector.seconds 60);
             runstats.GoRun (collector.seconds 10) true true ]
      /\ runstats.closed w' = [].
Proof.
  split.
  - intros env net config w. unfold runstats.RunCollector, mbind, M_bind.
    destruct (runstats.init env config w) as [[[] w0] | p]; [| reflexivity].
    rewrite newStatsSender_ignores_ping. reflexivity.
  - destruct (RunCollector_starts samples.env samples.unreachable 0
                runstats.zero_Config (samples.world_with runstats.zero_Config))
      as (w' & Hrun & Hsp & Hcl); try reflexivity.
    exists w'. split; [exact Hrun |]. split; [exact Hsp | exact Hcl].
Qed.

(** ** The health check *)

Section HealthCheck.
Import runstats.

Variable env : Env.

Lemma same_handles_refl (w : world) : same_handles w w.
Proof. repeat split. Qed.

Lemma same_handles_trans (w1 w2 w3 : world) :
  same_handles w1 w2 -> same_handles w2 w3 -> same_handles w1 w3.
Proof. unfold same_handles. intuition congruence. Qed.

Lemma failed_ping_turn (tick : ping_tick) (r : statsSender) (last : option error)
      (w : world) (h : nat) :
  client r = Some h -> ping_fails tick ->
  exists err w', ping_turn env tick (r, last) w = Ok ((r, Some err), w')
                 /\ same_handles w w'.
Proof.
  intros Hc Hfail. unfold ping_turn. rewrite Hc.
  destruct (ping tick) as [err |] eqn:Hping; [| contradiction].
  eexists _, _. split; [reflexivity | repeat split].
Qed.

Lemma quiet_ping_turn (tick : ping_tick) (r : statsSender) (w : world) (h : nat) :
  client r = Some h -> ping_succeeds tick ->
  ping_turn env tick (r, None) w = Ok ((r, None), w).
Proof.
  intros Hc Hok. unfold ping_turn. rewrite Hc, Hok. reflexivity.
Qed.

(** While the pings fail the sender keeps its client. *)
Lemma failing_ping_turns (ticks : list ping_tick) :
  forall (r : statsSender) (last : option error) (w : world) (h : nat),
    client r = Some h -> Forall ping_fails ticks ->
    exists last' w',
      ping_turns env ticks (r, last) w = Ok ((r, last'), w')
      /\ same_handles w w'
      /\ (ticks <> [] -> last' <> None)
      /\ (ticks = [] -> last' = last).
Proof.
  induction ticks as [| tick ticks IH]; intros r last w h Hc Hall.
  - exists last, w. repeat split; congruence.
  - apply Forall_cons in Hall as [Hfail Hall]. cbn [ping_turns].
    destruct (failed_ping_turn tick r last w h Hc Hfail) as (err & w1 & Hturn & Hsame).
    rewrite (bind_Ok _ _ _ _ _ Hturn).
    destruct (IH r (Some err) w1 h Hc Hall) as (last' & w' & Hrun & Hsame' & Hne & Hnil).
    exists last', w'. split; [exact Hrun |].
    split; [eapply same_handles_trans; eassumption |].
    split; [| discriminate].
    intros _. destruct ticks; [rewrite Hnil by reflexivity; discriminate | apply Hne; discriminate].
Qed.

Lemma quiet_ping_turns (ticks : list ping_tick) (r : statsSender) (w : world) (h : nat) :
  client r = Some h -> Forall ping_succeeds ticks ->
  ping_turns env ticks (r, None) w = Ok ((r, None), w).
Proof.
  intros Hc Hall. induction Hall as [| tick ticks Hok _ IH]; [reflexivity |].
  cbn [ping_turns].
  rewrite (bind_Ok _ _ _ _ _ (quiet_ping_turn tick r w h Hc Hok)). exact IH.
Qed.

(** The first answered ping after failures: one new client, the old one
    closed. *)
Lemma reconnect_turn (tick : ping_tick) (r : statsSender) (err : error)
      (w : world) (old : nat) (cfg : Config) :
  client r = Some old -> ping_succeeds tick ->
  heap w !! config r = Some cfg ->
  NewHTTPClient env (http_config cfg) = None ->
  exists w',
    ping_turn env tick (r, Some err) w
    = Ok ((set_client (Some (next_handle w)) r, None), w')
    /\ heap w' = heap w
    /\ closed w' = closed w ++ [old]
    /\ next_handle w' = S (next_handle w).
Proof.
  intros Hc Hok Hcfg Hnew.
  unfold ping_turn, newClient, deref, new_handle, Close, log_line.
  rewrite Hc, Hok. run_monad. rewrite Hcfg, Hnew. cbn.
  eexists. repeat split.
Qed.

Lemma ping_turns_app (ticks1 ticks2 : list ping_tick)
      (st : statsSender * option error) (w : world) :
  ping_turns env (ticks1 ++ ticks2) st w
  = match ping_turns env ticks1 st w with
    | Ok (st', w') => ping_turns env ticks2 st' w'
    | Panic p => Panic p
    end.
Proof.
  revert st w. induction ticks1 as [| tick ticks1 IH]; intros st w; [reflexivity |].
  cbn [ping_turns app]. unfold mbind, M_bind.
  destruct (ping_turn env tick st w) as [[st' w'] | p]; [apply IH | reflexivity].
Qed.

Lemma ping_loop_turns (ticks : list ping_tick) (r : statsSender) (w : world)
      (cfg : Config) :
  heap w !! config r = Some cfg -> 0 < PingInterval cfg ->
  ping_loop env ticks r w = ping_turns env ticks (r, None) w.
Proof.
  intros Hcfg Hpos. unfold ping_loop, deref, NewTicker. run_monad. rewrite Hcfg.
  destruct (Z.leb_spec (PingInterval cfg) 0); [lia | reflexivity].
Qed.

(** What a sender returned by [newStatsSender] is made of. *)
Lemma newStatsSender_returns (net : startup) (l : nat) (w0 w : world)
      (r : statsSender) :
  newStatsSender env net (Some l) w0 = Ok ((Some r, None), w) ->
  exists cfg,
    heap w !! l = Some cfg /\ config r = l
    /\ NewHTTPClient env (http_config cfg) = None
    /\ client r = Some (next_handle w0)
    /\ next_handle w = S (next_handle w0)
    /\ closed w = closed w0
    /\ points r = Some []
    /\ logger r = Logger cfg.
Proof.
  unfold newStatsSender, newClient, newBatch, deref, new_handle, queryDB, go,
    Println, log_line, Close.
  run_monad.
  destruct (heap w0 !! l) as [cfg |] eqn:Hcfg; [| discriminate].
  destruct (NewHTTPClient env (http_config cfg)) as [err |] eqn:Hnew;
    [discriminate |].
  cbn.
  destruct (create_database_answer net) as [e | e |];
    try destruct (Logger cfg) as [lg |] eqn:Hlg; cbn; try discriminate;
    rewrite ?Hcfg;
    destruct (NewBatchPoints env _) as [err |]; cbn;
    rewrite ?Hlg; cbn; try discriminate;
    intros [= <- <-]; exists cfg; cbn; rewrite ?Hlg; repeat split; assumption.
Qed.

(** From any connected state of a sender whose configuration the client
    constructor accepts: failures, then a success, then more successes. *)
Lemma reconnect_after_outage
      (r : statsSender) (w : world) (old : nat) (cfg : Config)
      (failing : list ping_tick) (success : ping_tick) (later : list ping_tick) :
  client r = Some old -> (old < next_handle w)%nat ->
  heap w !! config r = Some cfg -> 0 < PingInterval cfg ->
  NewHTTPClient env (http_config cfg) = None ->
  failing <> [] -> Forall ping_fails failing ->
  ping_succeeds success -> Forall ping_succeeds later ->
  (exists last w1,
      ping_loop env failing r w = Ok ((r, last), w1)
      /\ closed w1 = closed w /\ next_handle w1 = next_handle w)
  /\ (exists r2 w2,
         ping_loop env (failing ++ success :: later) r w = Ok ((r2, None), w2)
         /\ client r2 = Some (next_handle w)
         /\ client r2 <> Some old
         /\ closed w2 = closed w ++ [old]
         /\ next_handle w2 = S (next_handle w)).
Proof.
  intros Hc Hold Hcfg Hpos Hnew Hne Hfail Hok Hlater.
  rewrite !(ping_loop_turns _ r w cfg Hcfg Hpos).
  destruct (failing_ping_turns failing r None w old Hc Hfail)
    as (last & w1 & Hrun & (Hheap1 & Hcl1 & Hnh1) & Hlast & _).
  split; [exists last, w1; auto |].
  rewrite ping_turns_app, Hrun. cbn [ping_turns].
  destruct last as [err |]; [| exfalso; apply (Hlast Hne); reflexivity].
  rewrite <- Hheap1 in Hcfg.
  destruct (reconnect_turn success r err w1 old cfg Hc Hok Hcfg Hnew)
    as (w2 & Hturn & Hheap2 & Hcl2 & Hnh2).
  rewrite (bind_Ok _ _ _ _ _ Hturn).
  rewrite (quiet_ping_turns later _ w2 (next_handle w1)) by (reflexivity || assumption).
  eexists _, w2. split; [reflexivity |].
  rewrite Hcl2, Hnh2, Hcl1, Hnh1. cbn.
  repeat split. intros [= Heq]. lia.
Qed.

(** C5. In the health-check loop of the sender [newStatsSender] has
    returned, with a positive ping interval, let the pings fail for some
    ticks, then one ping succeed, then any number of pings succeed again.
    While the pings fail the client is kept, no handle is made and nothing
    is closed; at the first success one new handle is made and swapped in
    and the old handle is closed; the later successes change nothing: in
    all, exactly one handle is made and the only [Close] is the one of the
    old handle. *)
Theorem reconnect_swaps_once
        (net : startup) (l : nat) (w0 w : world) (r : statsSender)
        (failing : list ping_tick) (success : ping_tick) (later : list ping_tick) :
  newStatsSender env net (Some l) w0 = Ok ((Some r, None), w) ->
  (forall cfg, heap w !! l = Some cfg -> 0 < PingInterval cfg) ->
  failing <> [] -> Forall ping_fails failing ->
  ping_succeeds success -> Forall ping_succeeds later ->
  (exists last w1,
      ping_loop env failing r w = Ok ((r, last), w1)
      /\ closed w1 = closed w /\ next_handle w1 = next_handle w)
  /\ (exists r2 w2,
         ping_loop env (failing ++ success :: later) r w = Ok ((r2, None), w2)
         /\ client r2 = Some (next_handle w)
         /\ client r2 <> client r
         /\ closed w2 = closed w ++ [next_handle w0]
         /\ client r = Some (next_handle w0)
         /\ next_handle w2 = S (next_handle w)).
Proof.
  intros Hnew Hpos Hne Hfail Hok Hlater.
  destruct (newStatsSender_returns net l w0 w r Hnew)
    as (cfg & Hcfg & Hl & Haccept & Hclient & Hnh & _).
  rewrite <- Hl in Hcfg.
  destruct (reconnect_after_outage r w (next_handle w0) cfg failing success later)
    as (Hkept & r2 & w2 & Hrun & Hc2 & Hfresh & Hcl2 & Hnh2);
    try assumption.
  - rewrite Hnh. lia.
  - apply Hpos. rewrite <- Hl. exact Hcfg.
  - split; [exact Hkept |]. exists r2, w2. rewrite Hclient.
    repeat split; assumption.
Qed.

End HealthCheck.

Lemma reconnect_swaps_once_witness :
  exists r2 w2,
    runstats.ping_loop samples.env (samples.outage ++ [samples.back; samples.back])
      samples.sender samples.running = Ok ((r2, None), w2)
    /\ runstats.client r2 = Some 1%nat
    /\ runstats.closed w2 = [0%nat].
Proof.
  destruct (reconnect_swaps_once samples.env samples.unreachable 0
              (samples.world_with (runstats.defaults samples.env runstats.zero_Config))
              samples.running samples.sender
              samples.outage samples.back [samples.back])
    as (_ & r2 & w2 & Hrun & Hclient & _ & Hclosed & _).
  - reflexivity.
  - intros cfg [= <-]. reflexivity.
  - discriminate.
  - repeat constructor; discriminate.
  - reflexivity.
  - repeat constructor.
  - exists r2, w2. split; [exact Hrun |]. split; [exact Hclient | exact Hclosed].
Defined.

(** ** The hand-over of points *)

Section HandOver.
Import runstats.

Variable env : Env.

Lemma call_keeps_loop (fields : collector.Fields) (now : Z)
      (s s1 : system) (w w1 : world) :
  step env (CollectorCalls fields now) s w = Ok (s1, w1) ->
  sender s1 = sender s /\ loop_at s1 = loop_at s /\ flush_due s1 = flush_due s.
Proof.
  unfold step. destruct (sending s).
  - intros [= <- <-]. repeat split.
  - unfold mbind, M_bind.
    destruct (onNewPoint env (sender s) fields now w) as [[pt w'] | p];
      [| discriminate].
    intros [= <- <-]. repeat split.
Qed.

Lemma receive_appends (pt : Point) (r : statsSender) :
  points (receive pt r) = (fun batch => batch ++ [pt]) <$> points r.
Proof.
  unfold receive. destruct (points r) eqn:Hp; [reflexivity |].
  rewrite Hp. reflexivity.
Qed.

(** At its [select], unless it takes a due flush tick first, the batch
    loop receives the point and the send completes. *)
Lemma waiting_loop_takes_point (prefer_tick : bool) (s : system) (w : world)
      (pt : Point) :
  loop_at s = AtSelect -> sending s = Some pt ->
  flush_due s = false \/ prefer_tick = false ->
  step env (LoopSelects prefer_tick) s w = Ok (take_point pt s, w).
Proof.
  intros Hat Hsend Hchoice. unfold step. rewrite Hat, Hsend.
  destruct (flush_due s); [| reflexivity].
  destruct Hchoice as [? | ->]; [discriminate | reflexivity].
Qed.

(** Inside [Write] nothing but the sink's answer moves the batch loop,
    and the sender stays blocked. *)
Lemma blocked_during_write (ms : list move) :
  forall (s s' : system) (w w' : world) (pt : Point),
    loop_at s = InWrite -> sending s = Some pt ->
    Forall (fun m => is_sink_answer m = false) ms ->
    steps env ms s w = Ok (s', w') ->
    loop_at s' = InWrite /\ sending s' = Some pt /\ sender s' = sender s /\ w' = w.
Proof.
  induction ms as [| m ms IH]; intros s s' w w' pt Hat Hsend Hall.
  - intros [= <- <-]. repeat split; assumption.
  - apply Forall_cons in Hall as [Hm Hall]. cbn [steps].
    assert (Hstep : exists s1, step env m s w = Ok (s1, w)
              /\ loop_at s1 = InWrite /\ sending s1 = Some pt
              /\ sender s1 = sender s).
    { destruct m as [fields now | | prefer_tick | write]; cbn [step].
      - rewrite Hsend. exists s. repeat split; assumption.
      - eexists. split; [reflexivity |]. repeat split; assumption.
      - rewrite Hat. exists s. repeat split; assumption.
      - discriminate. }
    destruct Hstep as (s1 & Hstep & Hat1 & Hsend1 & Hsender1).
    rewrite (bind_Ok _ _ _ _ _ Hstep). intros Hrun.
    destruct (IH s1 s' w w' pt Hat1 Hsend1 Hall Hrun) as (? & ? & ? & ?).
    repeat split; congruence.
Qed.

(** The sink's answer brings the batch loop back to its [select]. *)
Lemma answer_returns_to_select (write : option error) (s s' : system) (w w' : world) :
  loop_at s = InWrite ->
  step env (SinkAnswers write) s w = Ok (s', w') ->
  loop_at s' = AtSelect /\ sending s' = sending s /\ flush_due s' = flush_due s.
Proof.
  intros Hat. unfold step. rewrite Hat. unfold mbind, M_bind.
  destruct (flush_end env write (sender s) w) as [[r w1] | p]; [| discriminate].
  intros [= <- <-]. repeat split.
Qed.

(** With nobody sending, a flush tick taken by the [select] and answered by
    the sink is one turn of [loop]. *)
Lemma flush_in_system (r : statsSender) (w : world) (prefer_tick : bool)
      (write : option error) :
  steps env [TickerFires; LoopSelects prefer_tick; SinkAnswers write] (started r) w
  = (r' ← loop_turn env (FlushTick write) r; mret (started r')) w.
Proof.
  unfold steps, step, started, take_tick, loop_turn, flush_begin. run_monad.
  destruct (points r) as [[| pt batch] |]; cbn; try reflexivity.
  destruct (flush_end env write r w) as [[r' w'] | p]; reflexivity.
Qed.

(** C8 (as amended). A call of [onNewPoint] that has made its point is
    a send on the unbuffered channel [pc], completed only by the batch
    loop's receive.  If the batch loop waits in its [select], its next
    [select] receives the point (unless a flush tick is due and taken
    first) and the call returns.  If the batch loop is inside a flush,
    the call stays blocked through every move that is not the sink's
    answer to the write, and returns at the first [select] after that
    answer which takes the point. *)
Theorem onNewPoint_blocks_until_received
        (s s1 : system) (w w1 : world) (fields : collector.Fields) (now : Z)
        (pt : Point) :
  sending s = None ->
  step env (CollectorCalls fields now) s w = Ok (s1, w1) ->
  sending s1 = Some pt ->
  (loop_at s = AtSelect ->
   forall prefer_tick,
     flush_due s = false \/ prefer_tick = false ->
     exists s2, step env (LoopSelects prefer_tick) s1 w1 = Ok (s2, w1)
                /\ sending s2 = None
                /\ points (sender s2)
                   = (fun batch => batch ++ [pt]) <$> points (sender s))
  /\ (loop_at s = InWrite ->
      (forall ms s2 w2,
          Forall (fun m => is_sink_answer m = false) ms ->
          steps env ms s1 w1 = Ok (s2, w2) ->
          sending s2 = Some pt /\ loop_at s2 = InWrite)
      /\ (forall write s2 w2,
             step env (SinkAnswers write) s1 w1 = Ok (s2, w2) ->
             exists s3, step env (LoopSelects false) s2 w2 = Ok (s3, w2)
                        /\ sending s3 = None
                        /\ points (sender s3)
                           = (fun batch => batch ++ [pt]) <$> points (sender s2))).
Proof.
  intros Hidle Hcall Hsend.
  destruct (call_keeps_loop _ _ _ _ _ _ Hcall) as (Hsender & Hat & Hdue).
  split.
  - intros Hsel prefer_tick Hchoice.
    rewrite <- Hat in Hsel. rewrite <- Hdue in Hchoice.
    exists (take_point pt s1).
    split; [apply waiting_loop_takes_point; assumption |].
    split; [reflexivity |]. cbn. rewrite receive_appends, Hsender. reflexivity.
  - intros Hwr. rewrite <- Hat in Hwr. split.
    + intros ms s2 w2 Hall Hrun.
      destruct (blocked_during_write ms s1 s2 w1 w2 pt Hwr Hsend Hall Hrun)
        as (? & ? & _). split; assumption.
    + intros write s2 w2 Hans.
      destruct (answer_returns_to_select write s1 s2 w1 w2 Hwr Hans)
        as (Hsel & Hsend2 & _).
      rewrite Hsend in Hsend2.
      exists (take_point pt s2).
      split; [apply waiting_loop_takes_point; auto |].
      split; [reflexivity |]. cbn. apply receive_appends.
Qed.

End HandOver.

Lemma onNewPoint_blocks_until_received_witness :
  exists s2,
    runstats.step samples.env (runstats.LoopSelects false)
      (samples.calling 1) samples.running = Ok (s2, samples.running)
    /\ runstats.sending s2 = None
    /\ runstats.points (runstats.sender s2)
       = (fun batch => batch ++ [samples.made_point 1])
           <$> runstats.points (runstats.sender (runstats.started samples.sender)).
Proof.
  refine (proj1 (onNewPoint_blocks_until_received samples.env
                   (runstats.started samples.sender) (samples.calling 1)
                   samples.running samples.running collector.zero_Fields 1
                   (samples.made_point 1) _ _ _) _ false _).
  - reflexivity.
  - vm_compute. reflexivity.
  - reflexivity.
  - reflexivity.
  - left. reflexivity.
Defined.

Lemma into_flush_reaches :
  runstats.steps samples.env samples.into_flush
    (runstats.started samples.sender) samples.running
  = Ok (samples.in_flush, samples.running).
Proof. vm_compute. reflexivity. Qed.

(** C8 (as stated) fails: no number of turns of the batch loop suffices
    for [onNewPoint] to return in every reachable state, because a batch
    loop that is inside a flush takes no point before the sink answers. *)
Lemma onNewPoint_not_bounded :
  ~ exists n,
      runstats.onNewPoint_returns_within samples.env samples.sender
        samples.running n.
Proof.
  intros [n Hbound].
  destruct (Hbound samples.into_flush samples.in_flush samples.running
              collector.zero_Fields 2
              {| runstats.sender := runstats.sender samples.in_flush;
                 runstats.loop_at := runstats.InWrite;
                 runstats.flush_due := false;
                 runstats.sending := Some (samples.made_point 2) |}
              samples.running into_flush_reaches eq_refl)
    as (s3 & w3 & Hrun & Hreturned).
  - vm_compute. reflexivity.
  - apply (blocked_during_write samples.env) with (pt := samples.made_point 2)
      in Hrun as (_ & Hblocked & _).
    + congruence.
    + reflexivity.
    + reflexivity.
    + clear. induction n; constructor; [reflexivity | assumption].
Qed.

(** ** The collector's loop *)

Section RunLoop.
Import runtime collector.

Context {W : Type}.
Variable c : Collector W.

Lemma calls_snoc (tr : list run_event) (e : run_event) :
  calls (tr ++ [e]) = (calls tr + if is_call e then 1 else 0)%nat.
Proof.
  unfold calls. rewrite List.filter_app, length_app. cbn.
  destruct (is_call e); reflexivity.
Qed.

Lemma call_ends_snoc (tr : list run_event) (e : run_event) :
  call_ends (tr ++ [e]) = (call_ends tr + if is_call_end e then 1 else 0)%nat.
Proof.
  unfold call_ends. rewrite List.filter_app, length_app. cbn.
  destruct (is_call_end e); reflexivity.
Qed.

Lemma ticks_snoc (tr : list run_event) (e : run_event) :
  ticks (tr ++ [e]) = (ticks tr + if is_tick e then 1 else 0)%nat.
Proof.
  unfold ticks. rewrite List.filter_app, length_app. cbn.
  destruct (is_tick e); reflexivity.
Qed.

Lemma take_tick_inversion (rt : Runtime) (st st' : run_state W) :
  take_tick c rt st = Ok st' ->
  exists fields,
    CollectStats c rt = Ok fields
    /\ st' = {| run_at := RunCallback fields; tick_waiting := false;
                done_now := done_now st; user := user st;
                trace := trace st ++ [EvCall fields] |}.
Proof.
  unfold take_tick. destruct (CollectStats c rt) as [fields | p]; cbn.
  - intros [= <-]. exists fields. split; reflexivity.
  - discriminate.
Qed.

Ltac observed :=
  unfold take_done, observe;
  cbn [trace run_at tick_waiting done_now user];
  rewrite ?calls_snoc, ?call_ends_snoc, ?ticks_snoc;
  cbn [is_call is_call_end is_tick].

Lemma run_step_invariant (m : run_move) (st st' : run_state W) :
  run_invariant st -> run_step c m st = Ok st' -> run_invariant st'.
Proof.
  unfold run_invariant. intros (Hticks & Hseq & Hret) Hstep.
  destruct m as [| | prefer_tick rt]; cbn [run_step] in Hstep.
  - injection Hstep as <-. observed.
    split; [destruct (tick_waiting st); lia |].
    split; [destruct (run_at st); lia | assumption].
  - destruct (done_now st) eqn:Hdone; injection Hstep as <-;
      try (rewrite Hdone; repeat split; assumption).
    observed. split; [lia |]. split; [destruct (run_at st); lia |].
    reflexivity.
  - destruct (run_at st) as [| fields |] eqn:Hat.
    + assert (Htake : forall st1, take_tick c rt st = Ok st1 ->
                        tick_waiting st = true -> run_invariant st1).
      { intros st1 Htake Hwait.
        apply take_tick_inversion in Htake as (fields & _ & ->).
        unfold run_invariant. observed.
        rewrite Hwait in Hticks. split; [lia |]. split; [lia | discriminate]. }
      assert (Hdone : done_now st = DoneClosed -> run_invariant (take_done st)).
      { intros Hclosed. unfold run_invariant. observed.
        split; [lia |]. split; [lia | intros _; exact Hclosed]. }
      unfold run_invariant in Htake, Hdone.
      destruct (done_now st) eqn:Hd, (tick_waiting st) eqn:Hw;
        try (injection Hstep as <-; rewrite ?Hat, ?Hd, ?Hw;
             repeat split; assumption);
        try (apply (Htake _ Hstep); reflexivity).
      * destruct prefer_tick;
          [apply (Htake _ Hstep); reflexivity |
           injection Hstep as <-; apply Hdone; reflexivity].
      * injection Hstep as <-; apply Hdone; reflexivity.
    + injection Hstep as <-. observed.
      split; [lia |]. split; [lia | discriminate].
    + injection Hstep as <-. rewrite Hat. repeat split; assumption.
Qed.

Lemma run_steps_invariant (ms : list run_move) :
  forall st st' : run_state W,
    run_invariant st -> run_steps c ms st = Ok st' -> run_invariant st'.
Proof.
  induction ms as [| m ms IH]; intros st st' Hinv; cbn [run_steps].
  - intros [= <-]. exact Hinv.
  - unfold mbind, outcome_bind.
    destruct (run_step c m st) as [st1 | p] eqn:Hstep; [| discriminate].
    apply IH. eapply run_step_invariant; eassumption.
Qed.

(** Once [Run] has returned, nothing moves but the ticker and [Done]. *)
Lemma returned_stays (ms : list run_move) :
  forall st st' : run_state W,
    run_at st = RunReturned -> run_steps c ms st = Ok st' ->
    run_at st' = RunReturned
    /\ calls (trace st') = calls (trace st)
    /\ user st' = user st.
Proof.
  induction ms as [| m ms IH]; intros st st' Hat; cbn [run_steps].
  - intros [= <-]. repeat split. exact Hat.
  - unfold mbind, outcome_bind.
    destruct (run_step c m st) as [st1 | p] eqn:Hstep; [| discriminate].
    intros Hrun.
    assert (H1 : run_at st1 = RunReturned
                 /\ calls (trace st1) = calls (trace st)
                 /\ user st1 = user st).
    { destruct m as [| | prefer_tick rt]; cbn [run_step] in Hstep.
      - injection Hstep as <-. observed.
        repeat split; [assumption | lia].
      - destruct (done_now st); injection Hstep as <-; observed;
          repeat split; try assumption; lia.
      - rewrite Hat in Hstep. injection Hstep as <-. repeat split. exact Hat. }
    destruct H1 as (Hat1 & Hcalls1 & Huser1).
    destruct (IH st1 st' Hat1 Hrun) as (? & ? & ?).
    repeat split; congruence.
Qed.

Lemma Run_invariant (ms : list run_move) (w : W) (st : run_state W) :
  Run c ms w = Ok st -> run_invariant st.
Proof.
  unfold Run. destruct (PauseDur c <=? 0); [discriminate |].
  apply run_steps_invariant. unfold run_invariant. cbn.
  split; [lia |]. split; [reflexivity | discriminate].
Qed.

(** C4 (as amended). In every state a run of [Run] reaches: the
    invocations started, plus the tick still waiting, do not exceed the
    ticks elapsed (each invocation has taken one tick from the ticker);
    invocations do not overlap and none is in flight while [Run] is at
    its [select] or has returned; [Run] has returned only with [Done]
    closed, and once it has returned no invocation starts any more.  At
    the [select], a waiting tick with [Done] not closed starts exactly
    one invocation, and [Done] closed with no tick waiting makes [Run]
    return; an invocation in flight is finished by the next step whether
    or not [Done] has been closed meanwhile. *)
Theorem Run_serves_ticks_until_done
        (ms : list run_move) (w : W) (st : run_state W) :
  Run c ms w = Ok st ->
  (calls (trace st) + (if tick_waiting st then 1 else 0) <= ticks (trace st))%nat
  /\ match run_at st with
     | RunCallback _ => calls (trace st) = S (call_ends (trace st))
     | _ => calls (trace st) = call_ends (trace st)
     end
  /\ (run_at st = RunReturned ->
      done_now st = DoneClosed /\ stops_calling c st)
  /\ (run_at st = RunSelect -> done_now st <> DoneClosed ->
      tick_waiting st = true ->
      forall prefer_tick rt fields,
        CollectStats c rt = Ok fields ->
        exists st', run_step c (RunSteps prefer_tick rt) st = Ok st'
                    /\ run_at st' = RunCallback fields
                    /\ tick_waiting st' = false
                    /\ calls (trace st') = S (calls (trace st)))
  /\ (run_at st = RunSelect -> done_now st = DoneClosed ->
      tick_waiting st = false ->
      forall prefer_tick rt,
        exists st', run_step c (RunSteps prefer_tick rt) st = Ok st'
                    /\ run_at st' = RunReturned
                    /\ calls (trace st') = calls (trace st))
  /\ (forall fields,
        run_at st = RunCallback fields ->
        forall prefer_tick rt,
          exists st', run_step c (RunSteps prefer_tick rt) st = Ok st'
                      /\ run_at st' = RunSelect
                      /\ user st' = collectStatsCallback c fields (user st)
                      /\ calls (trace st') = calls (trace st)).
Proof.
  intros Hrun. destruct (Run_invariant ms w st Hrun) as (Hticks & Hseq & Hret).
  split; [exact Hticks |]. split; [exact Hseq |].
  split; [| split; [| split]].
  - intros Hat. split; [apply Hret, Hat |].
    intros ms' st' Hmore. apply (returned_stays ms' st st' Hat Hmore).
  - intros Hat Hopen Hwait prefer_tick rt fields Hfields.
    cbn [run_step]. rewrite Hat, Hwait. unfold take_tick. rewrite Hfields.
    destruct (done_now st); [| | contradiction];
      eexists; (split; [reflexivity |]); observed;
      repeat split; lia.
  - intros Hat Hclosed Hidle prefer_tick rt.
    cbn [run_step]. rewrite Hat, Hclosed, Hidle.
    eexists. split; [reflexivity |]. observed. split; [reflexivity | lia].
  - intros fields Hat prefer_tick rt.
    cbn [run_step]. rewrite Hat.
    eexists. split; [reflexivity |]. observed. repeat split. lia.
Qed.

End RunLoop.

(** With a clock of three ticks, each served before the next, the callback
    runs three times and [Run] returns once [Done] is closed. *)
Lemma Run_serves_ticks_until_done_witness :
  exists st,
    collector.Run samples.counting samples.three_ticks 0%nat = Ok st
    /\ (collector.calls (collector.trace st)
        + (if collector.tick_waiting st then 1 else 0)
        <= collector.ticks (collector.trace st))%nat
    /\ collector.calls (collector.trace st) = 3%nat
    /\ collector.ticks (collector.trace st) = 3%nat
    /\ collector.user st = 3%nat
    /\ collector.run_at st = collector.RunReturned.
Proof.
  destruct (collector.Run samples.counting samples.three_ticks 0%nat) as [st | p] eqn:Hrun;
    [| vm_compute in Hrun; discriminate].
  exists st. split; [reflexivity |].
  pose proof (Run_serves_ticks_until_done samples.counting samples.three_ticks
                0%nat st Hrun) as (Hticks & _).
  vm_compute in Hrun. injection Hrun as <-.
  split; [exact Hticks |]. repeat split; reflexivity.
Defined.

(** C4 (as stated) fails: a tick that waits when [Done] is closed can
    still be taken by the [select], so an invocation starts after [Done]
    has been closed. *)
Lemma Run_may_call_after_close :
  exists st,
    collector.Run samples.counting samples.tick_then_close 0%nat = Ok st
    /\ collector.done_now st = collector.DoneClosed
    /\ ~ collector.stops_calling samples.counting st.
Proof.
  eexists. split; [reflexivity |]. split; [reflexivity |].
  intros Hstops.
  pose proof (Hstops [collector.RunSteps true samples.reading]) as Hcall.
  vm_compute in Hcall. specialize (Hcall _ eq_refl). discriminate Hcall.
Qed.

(** * Further properties *)

(** ** The collector, continued *)

Section CollectorMore.
Import runtime collector.

Lemma int64_of_uint64 (x : Z) :
  is_uint64 x -> int64 x = if x <? 2 ^ 63 then x else x - 2 ^ 64.
Proof.
  unfold is_uint64, int64, wrap_signed. intros Hx.
  replace (64 - 1) with 63 by reflexivity.
  destruct (Z.ltb_spec x (2 ^ 63)).
  - rewrite Z.mod_small by lia. lia.
  - replace (x + 2 ^ 63) with (x - 2 ^ 63 + 1 * 2 ^ 64) by lia.
    rewrite Z.mod_add by lia. rewrite Z.mod_small by lia. lia.
Qed.

Lemma int32_of_uint32 (x : Z) :
  is_uint32 x -> int32 x = if x <? 2 ^ 31 then x else x - 2 ^ 32.
Proof.
  unfold is_uint32, int32, wrap_signed. intros Hx.
  replace (32 - 1) with 31 by reflexivity.
  destruct (Z.ltb_spec x (2 ^ 31)).
  - rewrite Z.mod_small by lia. lia.
  - replace (x + 2 ^ 31) with (x - 2 ^ 31 + 1 * 2 ^ 32) by lia.
    rewrite Z.mod_add by lia. rewrite Z.mod_small by lia. lia.
Qed.

(** X1. Counters below 2^63 pass through [collectMemStats] unchanged, and so
    does a collection count below 2^31; a collection count from 2^31 on is
    reported as the negative number [NumGC - 2^32]. *)
Theorem collectMemStats_passes_or_wraps (rt : Runtime) (f g : Fields) :
  well_typed (ReadMemStats rt) ->
  Forall (fun x => 0 <= x < 2 ^ 63) (uint64_counters (ReadMemStats rt)) ->
  collectMemStats rt f = Ok g ->
  firstn 23 (mem_fields g).1 = uint64_counters (ReadMemStats rt)
  /\ GCCPUFraction g = runtime.GCCPUFraction (ReadMemStats rt)
  /\ (runtime.NumGC (ReadMemStats rt) < 2 ^ 31 ->
      NumGC g = runtime.NumGC (ReadMemStats rt))
  /\ (2 ^ 31 <= runtime.NumGC (ReadMemStats rt) ->
      NumGC g = runtime.NumGC (ReadMemStats rt) - 2 ^ 32 /\ NumGC g < 0).
Proof.
  intros [_ Hgc] Hsmall. unfold collectMemStats.
  destruct (runtime.PauseNs _ !! _) as [pause |]; [| discriminate].
  intros [= <-]. cbn [mem_fields fst firstn NumGC GCCPUFraction
                      Alloc TotalAlloc Sys Lookups Mallocs Frees HeapAlloc
                      HeapSys HeapIdle HeapInuse HeapReleased HeapObjects
                      StackInuse StackSys MSpanInuse MSpanSys MCacheInuse
                      MCacheSys OtherSys GCSys NextGC LastGC PauseTotalNs].
  split.
  - unfold uint64_counters in *.
    repeat match goal with
           | H : Forall _ (_ :: _) |- _ =>
             apply Forall_cons in H as [? H]
           end.
    repeat f_equal;
      (rewrite int64_of_uint64 by (unfold is_uint64; lia));
      match goal with
      | |- (if ?x <? ?y then _ else _) = _ =>
        destruct (Z.ltb_spec x y); [reflexivity | lia]
      end.
  - split; [reflexivity |].
    rewrite (int32_of_uint32 _ Hgc). unfold is_uint32 in Hgc.
    split; intros Hn;
      destruct (Z.ltb_spec (runtime.NumGC (ReadMemStats rt)) (2 ^ 31)); lia.
Qed.

Lemma collectMemStats_passes_or_wraps_witness :
  exists g, collectMemStats samples.reading zero_Fields = Ok g
            /\ firstn 23 (mem_fields g).1 = uint64_counters samples.mem_stats
            /\ NumGC g = 3.
Proof.
  destruct (collectMemStats_ok samples.reading zero_Fields) as (g & Hg & _);
    [reflexivity |].
  exists g. split; [exact Hg |].
  destruct (collectMemStats_passes_or_wraps samples.reading zero_Fields g)
    as (Hcounters & _ & Hgc & _).
  - exact mem_stats_well_typed.
  - repeat constructor; cbn; lia.
  - exact Hg.
  - split; [exact Hcounters |]. apply Hgc. cbn. lia.
Defined.

(** A map is the map of a list of bindings once the keys of the list are
    distinct, the map holds each binding, and it has no other key. *)
Lemma list_to_map_lookups {V : Type} (l : list (string * V)) (m : gmap string V) :
  NoDup l.*1 ->
  Forall (fun kv => m !! kv.1 = Some kv.2) l ->
  dom m = list_to_set l.*1 ->
  list_to_map l = m.
Proof.
  intros Hnodup Hall Hdom. apply map_eq. intros k.
  destruct (list_to_map l !! k) as [v |] eqn:Hk.
  - apply elem_of_list_to_map_2 in Hk.
    rewrite Forall_forall in Hall. symmetry. apply (Hall (k, v) Hk).
  - apply not_elem_of_list_to_map_2 in Hk.
    symmetry. apply not_elem_of_dom. rewrite Hdom.
    rewrite elem_of_list_to_set. exact Hk.
Qed.

Lemma json_tags_NoDup : NoDup json_tags.
Proof. refine (bool_decide_unpack (NoDup json_tags) _). vm_compute. exact I. Qed.

(** X2. The keys and values of [Values] are those of the struct tags of
    [Fields]: push mode and pull mode name every counter alike, no key is
    used twice, and there are 29 of them. *)
Theorem Values_agree_with_struct_tags (f : Fields) :
  (tagged_fields f).*1 = json_tags
  /\ NoDup json_tags
  /\ Values f = list_to_map (tagged_fields f)
  /\ (forall k v, Values f !! k = Some v <-> (k, v) ∈ tagged_fields f)
  /\ size (Values f) = 29%nat.
Proof.
  assert (Hkeys : (tagged_fields f).*1 = json_tags) by reflexivity.
  assert (Hmap : list_to_map (tagged_fields f) = Values f).
  { apply list_to_map_lookups.
    - rewrite Hkeys. apply json_tags_NoDup.
    - unfold tagged_fields. repeat (apply List.Forall_cons; [reflexivity |]).
      apply List.Forall_nil.
    - rewrite Hkeys. apply Values_dom. }
  split; [exact Hkeys |]. split; [apply json_tags_NoDup |].
  split; [symmetry; exact Hmap |]. split.
  - intros k v. rewrite <- Hmap. symmetry.
    apply elem_of_list_to_map. rewrite Hkeys. apply json_tags_NoDup.
  - rewrite <- (size_dom (D := gset string)), Values_dom.
    rewrite size_list_to_set by apply json_tags_NoDup. reflexivity.
Qed.

(** X3. The pull-mode render function collects both groups on every call: its
    collector is made by [New], whose flags cannot be changed from outside. *)
Theorem Metrics_collects_both_groups (measurement : string) (rt : Runtime)
        (p : influxdb.Point) :
  influxdb.Metrics measurement rt = Ok p ->
  cpu_fields (influxdb.Values p)
  = [ NumCPU rt; runtime.NumGoroutine rt; runtime.NumCgoCall rt ]
  /\ exists g, collectMemStats rt zero_Fields = Ok g
               /\ mem_fields (influxdb.Values p) = mem_fields g.
Proof.
  unfold influxdb.Metrics, CollectStats, New, mbind, outcome_bind.
  cbn [EnableMem EnableCPU].
  destruct (collectMemStats rt zero_Fields) as [g | e] eqn:Hg; [| discriminate].
  intros [= <-]. cbn [influxdb.Values]. split; [reflexivity |].
  exists g. split; reflexivity.
Qed.

Lemma Metrics_collects_both_groups_witness :
  exists p, influxdb.Metrics "go_runtime_metrics" samples.reading = Ok p
            /\ cpu_fields (influxdb.Values p) = [4; 2; 1].
Proof.
  destruct (influxdb.Metrics "go_runtime_metrics" samples.reading) as [p | e] eqn:Hp;
    [| vm_compute in Hp; discriminate].
  exists p. split; [reflexivity |].
  exact (proj1 (Metrics_collects_both_groups _ _ p Hp)).
Defined.

End CollectorMore.

(** ** The collector's loop, continued *)

Section RunMore.
Import runtime collector.

Context {W : Type}.
Variable c : Collector W.

Lemma snapshots_snoc (tr : list run_event) (e : run_event) :
  snapshots (tr ++ [e])
  = snapshots tr ++ match e with EvCall fields => [fields] | _ => [] end.
Proof.
  unfold snapshots. rewrite flat_map_app. cbn. rewrite app_nil_r. reflexivity.
Qed.

Lemma run_steps_preserve (P : run_state W -> Prop) :
  (forall m st st', P st -> run_step c m st = Ok st' -> P st') ->
  forall ms st st', P st -> run_steps c ms st = Ok st' -> P st'.
Proof.
  intros Hstep ms. induction ms as [| m ms IH]; intros st st' HP; cbn [run_steps].
  - intros [= <-]. exact HP.
  - unfold mbind, outcome_bind.
    destruct (run_step c m st) as [st1 | p] eqn:Hm; [| discriminate].
    apply IH. exact (Hstep m st st1 HP Hm).
Qed.

(** X4. [Done] left nil, [Run] never returns, whatever happens around it. *)
Theorem Run_with_nil_Done_never_returns
        (ms : list run_move) (w : W) (st : run_state W) :
  Done c = DoneNil ->
  Run c ms w = Ok st ->
  run_at st <> RunReturned /\ done_now st = DoneNil.
Proof.
  intros Hnil. unfold Run. destruct (PauseDur c <=? 0); [discriminate |].
  apply (run_steps_preserve
           (fun st => run_at st <> RunReturned /\ done_now st = DoneNil)).
  - intros m st0 st1 [Hat Hdone] Hstep.
    destruct m as [| | prefer_tick rt]; cbn [run_step] in Hstep.
    + injection Hstep as <-. split; assumption.
    + rewrite Hdone in Hstep. injection Hstep as <-. split; assumption.
    + destruct (run_at st0) as [| fields |] eqn:Hat0; [| | contradiction].
      * rewrite Hdone in Hstep. destruct (tick_waiting st0).
        -- apply take_tick_inversion in Hstep as (fields & _ & ->).
           split; [discriminate | exact Hdone].
        -- injection Hstep as <-. rewrite Hat0. split; [discriminate | exact Hdone].
      * injection Hstep as <-. split; [discriminate | exact Hdone].
  - cbn. split; [discriminate | exact Hnil].
Qed.

(** X5. The state of the embedding program is the callback folded over the
    snapshots of the invocations that have returned, in the order they
    were taken; every invocation is recorded once, and the one in flight
    is the last snapshot taken. *)
Theorem Run_folds_callback_over_snapshots
        (ms : list run_move) (w : W) (st : run_state W) :
  Run c ms w = Ok st ->
  user st = fold_left (fun w fields => collectStatsCallback c fields w)
                      (finished st) w
  /\ length (snapshots (trace st)) = calls (trace st)
  /\ (forall fields, run_at st = RunCallback fields ->
                     snapshots (trace st) = finished st ++ [fields]).
Proof.
  unfold Run. destruct (PauseDur c <=? 0); [discriminate |].
  apply (run_steps_preserve
           (fun st =>
              user st = fold_left (fun w fields => collectStatsCallback c fields w)
                                  (finished st) w
              /\ length (snapshots (trace st)) = calls (trace st)
              /\ (forall fields, run_at st = RunCallback fields ->
                                 snapshots (trace st) = finished st ++ [fields]))).
  - intros m st0 st1 Hinv Hstep.
    pose proof Hinv as (Huser & Hlen & Hlast).
    assert (Hquiet : forall e,
               (match e with EvCall _ => False | _ => True end) ->
               forall st2,
                 run_at st2 = run_at st0 -> user st2 = user st0 ->
                 trace st2 = trace st0 ++ [e] ->
                 user st2 = fold_left (fun w fields => collectStatsCallback c fields w)
                                      (finished st2) w
                 /\ length (snapshots (trace st2)) = calls (trace st2)
                 /\ (forall fields, run_at st2 = RunCallback fields ->
                                    snapshots (trace st2) = finished st2 ++ [fields])).
    { intros e He st2 Hat2 Huser2 Htr2. unfold finished in *.
      rewrite Hat2, Huser2, Htr2, snapshots_snoc, calls_snoc.
      destruct e; try contradiction; cbn [is_call];
        rewrite app_nil_r, Nat.add_0_r; repeat split; assumption. }
    destruct m as [| | prefer_tick rt]; cbn [run_step] in Hstep.
    + injection Hstep as <-. apply (Hquiet EvTick I); reflexivity.
    + destruct (done_now st0); injection Hstep as <-; try exact Hinv.
      apply (Hquiet EvClose I); reflexivity.
    + assert (Htake : forall st2, take_tick c rt st0 = Ok st2 ->
                        run_at st0 = RunSelect ->
                        user st2 = fold_left (fun w fields => collectStatsCallback c fields w)
                                             (finished st2) w
                        /\ length (snapshots (trace st2)) = calls (trace st2)
                        /\ (forall fields, run_at st2 = RunCallback fields ->
                                           snapshots (trace st2) = finished st2 ++ [fields])).
      { intros st2 Htake Hsel.
        apply take_tick_inversion in Htake as (fields & _ & ->).
        unfold finished in *. rewrite Hsel in Huser.
        cbn [run_at user trace]. rewrite snapshots_snoc, calls_snoc, removelast_last.
        cbn [is_call]. rewrite length_app. cbn [length].
        split; [exact Huser |]. split; [lia |].
        intros fields' [= <-]. reflexivity. }
      assert (Hdone : run_at st0 = RunSelect ->
                      user (take_done st0)
                      = fold_left (fun w fields => collectStatsCallback c fields w)
                                  (finished (take_done st0)) w
                      /\ length (snapshots (trace (take_done st0)))
                         = calls (trace (take_done st0))
                      /\ (forall fields, run_at (take_done st0) = RunCallback fields ->
                                         snapshots (trace (take_done st0))
                                         = finished (take_done st0) ++ [fields])).
      { intros Hsel. unfold finished, take_done, observe in *.
        cbn [run_at user trace]. rewrite Hsel in Huser.
        rewrite snapshots_snoc, calls_snoc, app_nil_r. cbn [is_call].
        rewrite Nat.add_0_r. split; [exact Huser |]. split; [exact Hlen |].
        discriminate. }
      destruct (run_at st0) as [| fields |] eqn:Hat0.
      * destruct (done_now st0), (tick_waiting st0).
        -- apply (Htake _ Hstep); reflexivity.
        -- injection Hstep as <-. rewrite Hat0. exact Hinv.
        -- apply (Htake _ Hstep); reflexivity.
        -- injection Hstep as <-. rewrite Hat0. exact Hinv.
        -- destruct prefer_tick;
             [apply (Htake _ Hstep); reflexivity
             | injection Hstep as <-; apply Hdone; reflexivity].
        -- injection Hstep as <-; apply Hdone; reflexivity.
      * injection Hstep as <-. unfold finished, observe in *.
        cbn [run_at user trace]. rewrite Hat0 in Huser.
        rewrite snapshots_snoc, calls_snoc, app_nil_r. cbn [is_call].
        rewrite Nat.add_0_r, (Hlast fields eq_refl), removelast_last in *.
        split; [| split; [exact Hlen | discriminate]].
        rewrite fold_left_app. cbn. rewrite <- Huser. reflexivity.
      * injection Hstep as <-. rewrite Hat0. exact Hinv.
  - unfold finished. cbn. repeat split. discriminate.
Qed.

Lemma calls_served (n : nat) (fields : Fields) :
  calls (concat (replicate n [EvTick; EvCall fields; EvCallEnd])) = n
  /\ ticks (concat (replicate n [EvTick; EvCall fields; EvCallEnd])) = n
  /\ snapshots (concat (replicate n [EvTick; EvCall fields; EvCallEnd]))
     = replicate n fields.
Proof.
  induction n as [| n (IHc & IHt & IHs)]; [repeat split |].
  cbn [replicate concat]. unfold calls, ticks, snapshots in *. cbn.
  rewrite IHc, IHt, IHs. repeat split.
Qed.

Lemma run_steps_app (ms1 ms2 : list run_move) (st : run_state W) :
  run_steps c (ms1 ++ ms2) st
  = match run_steps c ms1 st with
    | Ok st' => run_steps c ms2 st'
    | Panic p => Panic p
    end.
Proof.
  revert st. induction ms1 as [| m ms1 IH]; intros st; [reflexivity |].
  cbn [app run_steps]. unfold mbind, outcome_bind.
  destruct (run_step c m st) as [st1 | p]; [apply IH | reflexivity].
Qed.

Lemma serve_one (prefer_tick : bool) (rt : Runtime) (fields : Fields)
      (st : run_state W) :
  CollectStats c rt = Ok fields ->
  run_at st = RunSelect -> tick_waiting st = false ->
  done_now st <> DoneClosed ->
  run_steps c [TickElapses; RunSteps prefer_tick rt; RunSteps prefer_tick rt] st
  = Ok {| run_at := RunSelect; tick_waiting := false; done_now := done_now st;
          user := collectStatsCallback c fields (user st);
          trace := trace st ++ [EvTick; EvCall fields; EvCallEnd] |}.
Proof.
  intros Hfields Hat Hwait Hopen.
  destruct st as [at_ waiting d u tr]. cbn in Hat, Hwait, Hopen. subst.
  unfold run_steps, run_step, take_tick, take_done, observe, mbind, outcome_bind.
  cbn [run_at tick_waiting done_now user trace].
  destruct d; [| | contradiction]; rewrite Hfields;
    cbn [run_at tick_waiting done_now user trace];
    rewrite <- !app_assoc; reflexivity.
Qed.

Lemma served_from (n : nat) (prefer_tick : bool) (rt : Runtime) (fields : Fields) :
  CollectStats c rt = Ok fields ->
  forall st : run_state W,
    run_at st = RunSelect -> tick_waiting st = false ->
    done_now st <> DoneClosed ->
    exists st',
      run_steps c (served n prefer_tick rt) st = Ok st'
      /\ run_at st' = RunSelect /\ tick_waiting st' = false
      /\ done_now st' = done_now st
      /\ trace st' = trace st ++ concat (replicate n [EvTick; EvCall fields; EvCallEnd])
      /\ user st' = Nat.iter n (collectStatsCallback c fields) (user st).
Proof.
  intros Hfields. induction n as [| n IH]; intros st Hat Hwait Hopen.
  - exists st. cbn. rewrite app_nil_r. repeat split; assumption.
  - unfold served. cbn [replicate concat]. fold (served n prefer_tick rt).
    rewrite run_steps_app.
    rewrite (serve_one prefer_tick rt fields st Hfields Hat Hwait Hopen).
    destruct (IH {| run_at := RunSelect; tick_waiting := false;
                    done_now := done_now st;
                    user := collectStatsCallback c fields (user st);
                    trace := trace st ++ [EvTick; EvCall fields; EvCallEnd] |})
      as (st' & Hrun & Hat' & Hwait' & Hdone' & Htr' & Huser');
      [reflexivity | reflexivity | exact Hopen |].
    exists st'. split; [exact Hrun |].
    cbn [run_at tick_waiting done_now user trace] in *.
    repeat split; try assumption.
    + rewrite Htr'. rewrite <- !app_assoc. reflexivity.
    + rewrite Huser'. rewrite <- Nat.iter_succ_r. reflexivity.
Qed.

(** X6. A clock of [n] ticks, each served before the next: the callback is
    invoked exactly [n] times, each time with the snapshot of that tick. *)
Theorem Run_serves_each_tick_once
        (n : nat) (prefer_tick : bool) (rt : Runtime) (fields : Fields) (w : W) :
  0 < PauseDur c ->
  Done c <> DoneClosed ->
  CollectStats c rt = Ok fields ->
  exists st,
    Run c (served n prefer_tick rt) w = Ok st
    /\ calls (trace st) = n /\ ticks (trace st) = n
    /\ snapshots (trace st) = replicate n fields
    /\ user st = Nat.iter n (collectStatsCallback c fields) w
    /\ run_at st = RunSelect.
Proof.
  intros Hpos Hopen Hfields. unfold Run.
  destruct (Z.leb_spec (PauseDur c) 0); [lia |].
  destruct (served_from n prefer_tick rt fields Hfields
              {| run_at := RunSelect; tick_waiting := false; done_now := Done c;
                 user := w; trace := [] |})
    as (st & Hrun & Hat & _ & _ & Htr & Huser); try reflexivity; [exact Hopen |].
  exists st. split; [exact Hrun |]. cbn in Htr, Huser. rewrite Htr.
  destruct (calls_served n fields) as (Hc & Ht & Hs).
  repeat split; assumption.
Qed.

End RunMore.

Lemma Run_with_nil_Done_never_returns_witness :
  exists st,
    collector.Run (collector.New (W := nat) None) samples.three_ticks 0%nat = Ok st
    /\ collector.run_at st <> collector.RunReturned.
Proof.
  destruct (collector.Run (collector.New (W := nat) None) samples.three_ticks 0%nat) as [st | p] eqn:Hrun;
    [| vm_compute in Hrun; discriminate].
  exists st. split; [reflexivity |].
  exact (proj1 (Run_with_nil_Done_never_returns
                  (collector.New None) samples.three_ticks 0%nat st eq_refl Hrun)).
Defined.


Lemma Run_folds_callback_over_snapshots_witness :
  exists st,
    collector.Run samples.counting samples.three_ticks 0%nat = Ok st
    /\ collector.user st = 3%nat
    /\ length (finished st) = 3%nat.
Proof.
  destruct (collector.Run samples.counting samples.three_ticks 0%nat)
    as [st | p] eqn:Hrun; [| vm_compute in Hrun; discriminate].
  exists st. split; [reflexivity |].
  destruct (Run_folds_callback_over_snapshots samples.counting
              samples.three_ticks 0%nat st Hrun) as (Huser & _).
  vm_compute in Hrun. injection Hrun as <-. split; [exact Huser | reflexivity].
Defined.

Lemma Run_serves_each_tick_once_witness :
  exists st,
    collector.Run samples.counting (served 5 true samples.reading) 0%nat = Ok st
    /\ collector.calls (collector.trace st) = 5%nat
    /\ collector.user st = 5%nat.
Proof.
  destruct (collector.CollectStats samples.counting samples.reading)
    as [fields | p] eqn:Hfields; [| vm_compute in Hfields; discriminate].
  destruct (Run_serves_each_tick_once samples.counting 5 true samples.reading
              fields 0%nat) as (st & Hrun & Hcalls & _ & _ & Huser & _).
  - reflexivity.
  - discriminate.
  - exact Hfields.
  - exists st. split; [exact Hrun |]. split; [exact Hcalls | exact Huser].
Defined.

(** ** Configuration and start-up, continued *)

Section StartupMore.
Import runstats.

Variable env : Env.

Lemma defaults_idempotent (c : Config) :
  defaults env (defaults env c) = defaults env c.
Proof.
  destruct c as [addr db user pass meas rp bi pi prec ci dcpu dmem lg].
  unfold defaults. cbn [Addr Database Username Password Measurement
                        RetentionPolicy BatchInterval PingInterval Precision
                        CollectionInterval DisableCpu DisableMem Logger].
  f_equal.
  - destruct (String.eqb_spec addr ""); [reflexivity |].
    destruct (String.eqb_spec addr ""); [contradiction | reflexivity].
  - destruct (String.eqb_spec db ""); [reflexivity |].
    destruct (String.eqb_spec db ""); [contradiction | reflexivity].
  - destruct (String.eqb_spec meas "").
    + destruct (Hostname env); reflexivity.
    + destruct (String.eqb_spec meas ""); [contradiction | reflexivity].
  - destruct (Z.eqb_spec bi 0); [reflexivity |].
    destruct (Z.eqb_spec bi 0); [contradiction | reflexivity].
  - destruct (Z.eqb_spec pi 0); [reflexivity |].
    destruct (Z.eqb_spec pi 0); [contradiction | reflexivity].
  - destruct (Z.eqb_spec ci 0); [reflexivity |].
    destruct (Z.eqb_spec ci 0); [contradiction | reflexivity].
  - destruct lg; reflexivity.
Qed.

Lemma defaults2_idempotent (hostname : option string) (c : metrics.Config) :
  metrics.defaults hostname (metrics.defaults hostname c)
  = metrics.defaults hostname c.
Proof.
  destruct c as [addr tok org bucket meas fi ci dcpu dmem].
  unfold metrics.defaults.
  cbn [metrics.Addr metrics.AuthToken metrics.Org metrics.Bucket
       metrics.Measurement metrics.FlushInterval metrics.CollectionInterval
       metrics.DisableCpu metrics.DisableMem].
  f_equal.
  - destruct (String.eqb_spec addr ""); [reflexivity |].
    destruct (String.eqb_spec addr ""); [contradiction | reflexivity].
  - destruct (String.eqb_spec bucket ""); [reflexivity |].
    destruct (String.eqb_spec bucket ""); [contradiction | reflexivity].
  - destruct (String.eqb_spec meas "").
    + destruct hostname; reflexivity.
    + destruct (String.eqb_spec meas ""); [contradiction | reflexivity].
  - destruct (N.eqb_spec fi 0); [reflexivity |].
    destruct (N.eqb_spec fi 0); [contradiction | reflexivity].
  - destruct (Z.eqb_spec ci 0); [reflexivity |].
    destruct (Z.eqb_spec ci 0); [contradiction | reflexivity].
Qed.

(** X7. Resolving a configuration twice is resolving it once: a second [init]
    on the same [Config] leaves the store as the first one made it, in
    both versions. *)
Theorem init_twice_is_init_once
        (l1 : nat) (c1 : Config) (w1 : world)
        (l2 : nat) (c2 : metrics.Config) (w2 : metrics.world) :
  heap w1 !! l1 = Some c1 ->
  metrics.heap w2 !! l2 = Some c2 ->
  (exists w1', init env (Some l1) w1 = Ok (tt, w1')
               /\ init env (Some l1) w1' = Ok (tt, w1'))
  /\ (exists w2', metrics.init (Hostname env) (Some l2) w2 = Ok (tt, w2')
                  /\ metrics.init (Hostname env) (Some l2) w2' = Ok (tt, w2')).
Proof.
  intros H1 H2. split.
  - eexists. split; [apply (init_non_nil env l1 c1 w1 H1) |].
    rewrite (init_non_nil env l1 (defaults env c1)) by (cbn; apply lookup_insert_eq).
    rewrite defaults_idempotent. unfold set_heap. cbn.
    rewrite insert_insert_eq. reflexivity.
  - eexists. split; [apply (init2_non_nil _ l2 c2 w2 H2) |].
    rewrite (init2_non_nil _ l2 (metrics.defaults (Hostname env) c2))
      by (cbn; apply lookup_insert_eq).
    rewrite defaults2_idempotent. cbn.
    rewrite insert_insert_eq. reflexivity.
Qed.

(** With the batch constructor refusing the configuration, [RunCollector]
    closes the client it has just made and returns the constructor's
    error; nothing is started. *)
Lemma RunCollector_refused_batch
      (net : startup) (l : nat) (c : Config) (w : world) (err : error) :
  heap w !! l = Some c ->
  NewHTTPClient env (http_config (defaults env c)) = None ->
  NewBatchPoints env (bp_config (defaults env c)) = Some err ->
  exists w',
    RunCollector env net (Some l) w = Ok (Some err, w')
    /\ spawned w' = spawned w
    /\ closed w' = closed w ++ [next_handle w]
    /\ next_handle w' = S (next_handle w).
Proof.
  intros Hl.
  assert (HLogger : exists lg, Logger (defaults env c) = Some lg).
  { cbn. destruct (Logger c); eauto. }
  destruct HLogger as [lg Hlg].
  unfold bp_config. remember (defaults env c) as cfg eqn:Hcfg.
  intros Hclient Hbatch. unfold RunCollector.
  rewrite (bind_Ok _ _ _ _ _ (init_non_nil env l c w Hl)). rewrite <- Hcfg.
  unfold newStatsSender, newClient, newBatch, deref, new_handle, queryDB, go,
    Println, log_line, Close.
  run_monad. rewrite lookup_insert_eq, Hclient. cbn. rewrite Hlg.
  destruct (create_database_answer net) as [e | e |]; cbn;
    rewrite lookup_insert_eq, Hbatch; cbn;
    eexists; (split; [reflexivity |]); cbn; repeat split.
Qed.

(** Whatever [RunCollector] returns, the caller's [Config] is left
    resolved. *)
Lemma RunCollector_keeps_config
      (net : startup) (l : nat) (c : Config) (w : world) :
  heap w !! l = Some c ->
  forall res w',
    RunCollector env net (Some l) w = Ok (res, w') ->
    heap w' !! l = Some (defaults env c).
Proof.
  intros Hl. unfold RunCollector.
  rewrite (bind_Ok _ _ _ _ _ (init_non_nil env l c w Hl)).
  unfold newStatsSender, newClient, newBatch, deref, new_handle, queryDB, go,
    Println, log_line, Close.
  run_monad. rewrite lookup_insert_eq.
  intros res w'.
  destruct (NewHTTPClient env _); cbn;
    [intros [= <- <-]; cbn; apply lookup_insert_eq |].
  destruct (create_database_answer net), (Logger c); cbn;
    rewrite ?lookup_insert_eq;
    destruct (NewBatchPoints env _); cbn; rewrite ?lookup_insert_eq; cbn;
    intros [= <- <-]; cbn; apply lookup_insert_eq.
Qed.

(** X8. [RunCollector] on a configuration that is there never panics.  It
    returns an error exactly when one of the two constructors of the client
    library refuses the resolved configuration, and then no goroutine is
    started and no client is left open; otherwise it returns nil and has
    started the ping loop, the batch loop and the collector, in this
    order. *)
Theorem RunCollector_outcomes
        (net : startup) (l : nat) (c : Config) (w : world) :
  heap w !! l = Some c ->
  exists res w',
    RunCollector env net (Some l) w = Ok (res, w')
    /\ heap w' !! l = Some (defaults env c)
    /\ match NewHTTPClient env (http_config (defaults env c)),
             NewBatchPoints env (bp_config (defaults env c)) with
       | Some err, _ =>
         res = Some (Wrap err "failed to create influxDB client")
         /\ spawned w' = spawned w
         /\ next_handle w' = next_handle w /\ closed w' = closed w
       | None, Some err =>
         res = Some err
         /\ spawned w' = spawned w
         /\ next_handle w' = S (next_handle w)
         /\ closed w' = closed w ++ [next_handle w]
       | None, None =>
         res = None
         /\ spawned w'
            = spawned w ++ [ GoPing; GoLoop (BatchInterval (defaults env c));
                             GoRun (CollectionInterval (defaults env c))
                                   (negb (DisableCpu c)) (negb (DisableMem c)) ]
         /\ next_handle w' = S (next_handle w) /\ closed w' = closed w
       end.
Proof.
  intros Hl.
  pose proof (RunCollector_keeps_config net l c w Hl) as Hheap.
  destruct (NewHTTPClient env (http_config (defaults env c))) as [err |] eqn:Hclient.
  - destruct (RunCollector_reports_constructor_error env net l c w err Hl Hclient)
      as (w' & Hrun & Hsp & Hnh).
    exists (Some (Wrap err "failed to create influxDB client")), w'.
    split; [exact Hrun |]. split; [exact (Hheap _ _ Hrun) |].
    repeat split; try assumption.
    revert Hrun. unfold RunCollector.
    rewrite (bind_Ok _ _ _ _ _ (init_non_nil env l c w Hl)).
    unfold newStatsSender, newClient, deref. run_monad.
    rewrite lookup_insert_eq, Hclient. cbn. intros [= <-]. reflexivity.
  - destruct (NewBatchPoints env (bp_config (defaults env c))) as [err |] eqn:Hbatch.
    + destruct (RunCollector_refused_batch net l c w err Hl Hclient Hbatch)
        as (w' & Hrun & Hsp & Hcl & Hnh).
      exists (Some err), w'. split; [exact Hrun |].
      split; [exact (Hheap _ _ Hrun) |]. repeat split; assumption.
    + destruct (RunCollector_starts env net l c w Hl Hclient Hbatch)
        as (w' & Hrun & Hsp & Hcl).
      exists None, w'. split; [exact Hrun |].
      split; [exact (Hheap _ _ Hrun) |]. split; [reflexivity |].
      split; [exact Hsp |]. split; [| exact Hcl].
      revert Hrun. unfold RunCollector.
      rewrite (bind_Ok _ _ _ _ _ (init_non_nil env l c w Hl)).
      unfold newStatsSender, newClient, newBatch, deref, new_handle, queryDB, go,
        Println, log_line, Close.
      unfold bp_config in Hbatch.
      run_monad. rewrite lookup_insert_eq, Hclient. cbn.
      destruct (create_database_answer net), (Logger c); cbn;
        rewrite ?lookup_insert_eq, ?Hbatch; cbn; rewrite ?lookup_insert_eq; cbn;
        intros [= <-]; reflexivity.
Qed.

(** X9. Of the two requests [newStatsSender] sends at start-up, only a
    creation of the database that the server answers with an error leaves
    a log line; a failed ping and a query that got no answer leave none. *)
Theorem startup_logs_only_rejected_query
        (net : startup) (l : nat) (c : Config) (w : world) :
  heap w !! l = Some c ->
  NewHTTPClient env (http_config (defaults env c)) = None ->
  NewBatchPoints env (bp_config (defaults env c)) = None ->
  exists w',
    RunCollector env net (Some l) w = Ok (None, w')
    /\ logged w'
       = logged w ++ match create_database_answer net with
                     | QueryRejected err => [err]
                     | _ => []
                     end.
Proof.
  intros Hl Hclient Hbatch.
  destruct (RunCollector_starts env net l c w Hl Hclient Hbatch) as (w' & Hrun & _).
  exists w'. split; [exact Hrun |].
  revert Hrun. unfold RunCollector.
  rewrite (bind_Ok _ _ _ _ _ (init_non_nil env l c w Hl)).
  unfold newStatsSender, newClient, newBatch, deref, new_handle, queryDB, go,
    Println, log_line, Close.
  unfold bp_config in Hbatch.
  run_monad. rewrite lookup_insert_eq, Hclient. cbn.
  destruct (create_database_answer net), (Logger c); cbn;
    rewrite ?lookup_insert_eq, ?Hbatch; cbn; rewrite ?lookup_insert_eq; cbn;
    intros [= <-]; cbn; rewrite ?app_nil_r; reflexivity.
Qed.

(** X10. A negative interval passes [RunCollector] without error, and the loop
    that is started with it panics when it makes its ticker. *)
Theorem negative_interval_panics_in_its_loop
        (net : startup) (l : nat) (c : Config) (w : world) :
  heap w !! l = Some c ->
  NewHTTPClient env (http_config (defaults env c)) = None ->
  NewBatchPoints env (bp_config (defaults env c)) = None ->
  exists w',
    RunCollector env net (Some l) w = Ok (None, w')
    /\ (BatchInterval c < 0 ->
        In (GoLoop (BatchInterval c)) (spawned w')
        /\ forall evs r w0,
             loop env (BatchInterval c) evs r w0 = Panic NonPositiveInterval)
    /\ (PingInterval c < 0 ->
        forall ticks r,
          config r = l ->
          ping_loop env ticks r w' = Panic NonPositiveInterval)
    /\ (CollectionInterval c < 0 ->
        In (GoRun (CollectionInterval c) (negb (DisableCpu c)) (negb (DisableMem c)))
           (spawned w')
        /\ forall (W : Type) (k : collector.Collector W) ms u,
             collector.PauseDur k = CollectionInterval c ->
             collector.Run k ms u = Panic NonPositiveInterval).
Proof.
  intros Hl Hclient Hbatch.
  destruct (RunCollector_starts env net l c w Hl Hclient Hbatch) as (w' & Hrun & Hsp & _).
  pose proof (RunCollector_keeps_config net l c w Hl _ _ Hrun) as Hheap.
  cbn [DisableCpu DisableMem defaults] in Hsp.
  exists w'. split; [exact Hrun |]. split; [| split].
  - intros Hneg.
    assert (Hsame : BatchInterval (defaults env c) = BatchInterval c).
    { cbn. destruct (Z.eqb_spec (BatchInterval c) 0); [lia | reflexivity]. }
    split.
    + rewrite Hsp, Hsame. apply in_or_app. right. cbn. auto.
    + intros evs r w0. unfold loop, NewTicker.
      destruct (Z.leb_spec (BatchInterval c) 0); [reflexivity | lia].
  - intros Hneg ticks r Hr. unfold ping_loop, deref, NewTicker. run_monad.
    rewrite Hr, Hheap. cbn.
    destruct (Z.eqb_spec (PingInterval c) 0); [lia |].
    destruct (Z.leb_spec (PingInterval c) 0); [reflexivity | lia].
  - intros Hneg.
    assert (Hsame : CollectionInterval (defaults env c) = CollectionInterval c).
    { cbn. destruct (Z.eqb_spec (CollectionInterval c) 0); [lia | reflexivity]. }
    split.
    + rewrite Hsp, Hsame. apply in_or_app. right. cbn. auto.
    + intros W k ms u Hk. unfold collector.Run. rewrite Hk.
      destruct (Z.leb_spec (CollectionInterval c) 0); [reflexivity | lia].
Qed.

(** X11. When [NewPoint] refuses the snapshot, [onNewPoint] logs one line and
    returns without sending: the Collector is not held up, wherever the
    batch loop is, and the batch never sees the snapshot. *)
Theorem refused_point_is_dropped
        (s : system) (w : world) (cfg : Config) (lg : logger_value)
        (fields : collector.Fields) (now : Z) (err : error) :
  sending s = None ->
  heap w !! config (sender s) = Some cfg ->
  logger (sender s) = Some lg ->
  NewPoint env (Measurement cfg) (collector.Tags fields)
           (collector.Values fields) now = Some err ->
  exists w',
    step env (CollectorCalls fields now) s w = Ok (s, w')
    /\ logged w' = logged w ++ [Wrap err "error while creating point"]
    /\ written w' = written w.
Proof.
  intros Hidle Hcfg Hlg Herr.
  unfold step, onNewPoint, deref, Println, log_line,
    mbind, M_bind, mret, M_ret, modify, throw.
  rewrite Hidle, Hcfg, Herr, Hlg.
  eexists. split.
  - destruct s; cbn in *. subst. reflexivity.
  - split; reflexivity.
Qed.

End StartupMore.

Lemma init_twice_is_init_once_witness :
  exists w1',
    runstats.init samples.env (Some 0%nat) (samples.world_with runstats.zero_Config)
    = Ok (tt, w1')
    /\ runstats.init samples.env (Some 0%nat) w1' = Ok (tt, w1').
Proof.
  refine (proj1 (init_twice_is_init_once samples.env
                   0 runstats.zero_Config (samples.world_with runstats.zero_Config)
                   0 samples.zero_Config2 (samples.world2_with samples.zero_Config2)
                   _ _)); reflexivity.
Defined.

Lemma RunCollector_outcomes_witness :
  exists w',
    runstats.RunCollector inputs.strict_env samples.unreachable (Some 0%nat)
      (samples.world_with runstats.zero_Config)
    = Ok (Some "unknown precision"%string, w')
    /\ runstats.closed w' = [0%nat]
    /\ runstats.spawned w' = [].
Proof.
  destruct (RunCollector_outcomes inputs.strict_env samples.unreachable 0
              runstats.zero_Config (samples.world_with runstats.zero_Config))
    as (res & w' & Hrun & _ & Hcase); [reflexivity |].
  cbn in Hcase. destruct Hcase as (-> & Hsp & _ & Hcl).
  exists w'. split; [exact Hrun |]. split; [exact Hcl | exact Hsp].
Defined.

Lemma startup_logs_only_rejected_query_witness :
  exists w',
    runstats.RunCollector samples.env inputs.rejecting (Some 0%nat)
      (samples.world_with runstats.zero_Config) = Ok (None, w')
    /\ runstats.logged w' = ["not authorized"%string].
Proof.
  exact (startup_logs_only_rejected_query samples.env inputs.rejecting 0
           runstats.zero_Config (samples.world_with runstats.zero_Config)
           eq_refl eq_refl eq_refl).
Defined.

Lemma negative_interval_panics_in_its_loop_witness :
  exists w',
    runstats.RunCollector samples.env samples.unreachable (Some 0%nat)
      (samples.world_with inputs.negative_batch_interval) = Ok (None, w')
    /\ In (runstats.GoLoop (-1)) (runstats.spawned w').
Proof.
  destruct (negative_interval_panics_in_its_loop samples.env samples.unreachable 0
              inputs.negative_batch_interval
              (samples.world_with inputs.negative_batch_interval)
              eq_refl eq_refl eq_refl) as (w' & Hrun & Hbatch & _).
  exists w'. split; [exact Hrun |].
  apply Hbatch. reflexivity.
Defined.

Lemma refused_point_is_dropped_witness :
  exists w',
    runstats.step inputs.no_point_env
      (runstats.CollectorCalls collector.zero_Fields 1)
      samples.in_flush samples.running = Ok (samples.in_flush, w')
    /\ runstats.written w' = [].
Proof.
  destruct (refused_point_is_dropped inputs.no_point_env samples.in_flush
              samples.running
              (runstats.defaults samples.env runstats.zero_Config)
              runstats.DefaultLogger collector.zero_Fields 1
              "max key length exceeded"%string)
    as (w' & Hstep & _ & Hwr); try reflexivity.
  exists w'. split; [exact Hstep | exact Hwr].
Defined.

(** ** The batch loop, continued *)

Section BatchMore.
Import runstats.

Variable env : Env.

Lemma delivered_app (w w' : world) (new : list (nat * list Point)) :
  written w' = written w ++ new ->
  delivered w' = delivered w ++ concat new.*2.
Proof.
  intros Hw. unfold delivered. rewrite Hw, fmap_app, concat_app. reflexivity.
Qed.

(** One turn of the loop with a batch constructor that accepts the
    configuration: the batch stays non-nil, and what is written is a
    non-empty batch through the sender's client. *)
Lemma loop_turn_accounts (ev : loop_event) (r : statsSender) (w : world)
      (batch : list Point) (h : nat) (lg : logger_value) (cfg : Config) :
  points r = Some batch -> client r = Some h -> logger r = Some lg ->
  heap w !! config r = Some cfg ->
  NewBatchPoints env (bp_config cfg) = None ->
  exists r' w' batch' new,
    loop_turn env ev r w = Ok (r', w')
    /\ points r' = Some batch' /\ client r' = Some h /\ logger r' = Some lg
    /\ config r' = config r /\ heap w' = heap w
    /\ written w' = written w ++ new
    /\ Forall (fun x => x.1 = h /\ x.2 <> []) new
    /\ concat new.*2 ++ batch' = batch ++ arrivals [ev].
Proof.
  intros Hp Hc Hl Hcfg Hnew. unfold bp_config in Hnew.
  destruct ev as [write | pt].
  - unfold loop_turn, flush_begin, flush_end, newBatch, deref, accept_batch,
      Println, log_line.
    rewrite Hp, Hc, Hl. run_monad.
    destruct batch as [| pt batch]; cbn.
    + exists r, w, [], []. rewrite app_nil_r.
      repeat split; try assumption; constructor.
    + destruct write as [err |]; cbn.
      * eexists r, _, (pt :: batch), []. split; [reflexivity |].
        cbn. rewrite !app_nil_r. repeat split; try assumption; constructor.
      * rewrite Hcfg, Hnew. cbn.
        eexists _, _, [], [(h, pt :: batch)]. split; [reflexivity |].
        cbn. rewrite !app_nil_r.
        repeat split; try assumption.
        repeat constructor. discriminate.
  - destruct (receive_points pt r batch Hp) as (Hp1 & Hc1 & Hl1 & Hcfg1).
    exists (receive pt r), w, (batch ++ [pt]), [].
    split; [reflexivity |]. cbn. rewrite app_nil_r.
    repeat split; try congruence; constructor.
Qed.

(** X12. Whatever the order of arriving points and of accepted and refused
    flushes, no point is lost, written twice or reordered: the points the
    sink has accepted followed by the batch the sender holds are the points
    it held at the beginning followed by all that arrived.  No empty batch
    is written, and every batch goes through the sender's client. *)
Theorem loop_accounts_for_every_point
        (evs : list loop_event) (r : statsSender) (w : world)
        (batch : list Point) (h : nat) (lg : logger_value) (cfg : Config) :
  points r = Some batch -> client r = Some h -> logger r = Some lg ->
  heap w !! config r = Some cfg ->
  NewBatchPoints env (bp_config cfg) = None ->
  exists r' w' batch' new,
    loop_turns env evs r w = Ok (r', w')
    /\ points r' = Some batch'
    /\ written w' = written w ++ new
    /\ Forall (fun x => x.1 = h /\ x.2 <> []) new
    /\ delivered w' ++ batch' = delivered w ++ batch ++ arrivals evs.
Proof.
  revert r w batch.
  induction evs as [| ev evs IH]; intros r w batch Hp Hc Hl Hcfg Hnew.
  - exists r, w, batch, []. cbn. rewrite !app_nil_r.
    repeat split; try assumption. constructor.
  - destruct (loop_turn_accounts ev r w batch h lg cfg Hp Hc Hl Hcfg Hnew)
      as (r1 & w1 & batch1 & new1 & Hturn & Hp1 & Hc1 & Hl1 & Hcfg1 & Hheap1
          & Hwr1 & Hall1 & Hsum1).
    rewrite <- Hcfg1, <- Hheap1 in Hcfg.
    destruct (IH r1 w1 batch1 Hp1 Hc1 Hl1 Hcfg Hnew)
      as (r' & w' & batch' & new' & Hrun & Hp' & Hwr' & Hall' & Hsum').
    exists r', w', batch', (new1 ++ new').
    cbn [loop_turns]. rewrite (bind_Ok _ _ _ _ _ Hturn).
    split; [exact Hrun |]. split; [exact Hp' |].
    split; [rewrite Hwr', Hwr1, app_assoc; reflexivity |].
    split; [apply Forall_app; split; assumption |].
    rewrite Hsum', (delivered_app w w1 new1 Hwr1).
    rewrite <- !app_assoc. f_equal.
    rewrite (app_assoc (concat new1.*2)), Hsum1.
    cbn [arrivals flat_map]. rewrite app_nil_r in *.
    change (flat_map _ evs) with (arrivals evs).
    rewrite <- !app_assoc. reflexivity.
Qed.

(** X13. When the batch constructor refuses the configuration after an accepted
    write, the batch is delivered but the sender is left with a nil batch:
    from then on arriving points are discarded, and the next flush tick
    panics, because the batch is asked for its points before it is compared
    with nil. *)
Theorem loop_with_nil_batch
        (r : statsSender) (w : world) (pt : Point) (batch : list Point)
        (h : nat) (lg : logger_value) (cfg : Config) (err : error) :
  points r = Some (pt :: batch) -> client r = Some h -> logger r = Some lg ->
  heap w !! config r = Some cfg ->
  NewBatchPoints env (bp_config cfg) = Some err ->
  exists r' w',
    loop_turn env (FlushTick None) r w = Ok (r', w')
    /\ written w' = written w ++ [(h, pt :: batch)]
    /\ points r' = None
    /\ (forall pts w0,
          loop_turns env (PointArrives <$> pts) r' w0 = Ok (r', w0))
    /\ (forall pts write evs w0,
          loop_turns env ((PointArrives <$> pts) ++ FlushTick write :: evs) r' w0
          = Panic NilDereference).
Proof.
  intros Hp Hc Hl Hcfg Hnew. unfold bp_config in Hnew.
  assert (Hdrop : forall r', points r' = None ->
             forall pts w0,
               loop_turns env (PointArrives <$> pts) r' w0 = Ok (r', w0)).
  { intros r' Hnil pts. induction pts as [| p pts IH]; intros w0; [reflexivity |].
    cbn [fmap list_fmap loop_turns loop_turn]. unfold receive. rewrite Hnil.
    rewrite (bind_Ok _ _ w0 w0 r') by reflexivity. apply IH. }
  unfold loop_turn, flush_begin, flush_end, newBatch, deref, accept_batch,
    Println, log_line.
  rewrite Hp, Hc, Hl. run_monad. rewrite Hcfg, Hnew. cbn.
  eexists _, _. split; [reflexivity |]. cbn.
  split; [reflexivity |]. split; [reflexivity |]. split.
  - apply Hdrop. reflexivity.
  - intros pts write evs w0. rewrite loop_turns_app.
    rewrite Hdrop by reflexivity. reflexivity.
Qed.

End BatchMore.

Lemma loop_accounts_for_every_point_witness :
  exists r' w' batch' new,
    runstats.loop_turns samples.env
      (samples.two_failed_flushes
         ++ [runstats.FlushTick None; runstats.PointArrives (samples.point 3)])
      samples.sender samples.running = Ok (r', w')
    /\ runstats.points r' = Some batch'
    /\ runstats.written w' = runstats.written samples.running ++ new
    /\ Forall (fun x => x.1 = 0%nat /\ x.2 <> []) new
    /\ delivered w' ++ batch'
       = [samples.point 1; samples.point 2; samples.point 3].
Proof.
  exact (loop_accounts_for_every_point samples.env
           (samples.two_failed_flushes
              ++ [runstats.FlushTick None; runstats.PointArrives (samples.point 3)])
           samples.sender samples.running [] 0%nat runstats.DefaultLogger
           (runstats.defaults samples.env runstats.zero_Config)
           eq_refl eq_refl eq_refl eq_refl eq_refl).
Defined.

Lemma loop_with_nil_batch_witness :
  exists r' w',
    runstats.loop_turn inputs.strict_env (runstats.FlushTick None)
      (runstats.sender samples.in_flush) samples.running = Ok (r', w')
    /\ runstats.written w' = [(0%nat, [samples.made_point 1])]
    /\ runstats.points r' = None.
Proof.
  destruct (loop_with_nil_batch inputs.strict_env
              (runstats.sender samples.in_flush) samples.running
              (samples.made_point 1) [] 0%nat runstats.DefaultLogger
              (runstats.defaults samples.env runstats.zero_Config)
              "unknown precision"%string eq_refl eq_refl eq_refl eq_refl eq_refl)
    as (r' & w' & Hturn & Hwr & Hnil & _).
  exists r', w'. split; [exact Hturn |]. split; [exact Hwr | exact Hnil].
Defined.

(** ** The health check, continued *)

Section HealthMore.
Import runstats.

Variable env : Env.

(** One tick of the health check, whatever the pings and the client
    constructor answer. *)
Lemma ping_turn_sound (tick : ping_tick) (r : statsSender) (last : option error)
      (w : world) (cfg : Config) :
  handles_sound r w -> heap w !! config r = Some cfg ->
  exists r' last' w',
    ping_turn env tick (r, last) w = Ok ((r', last'), w')
    /\ handles_sound r' w' /\ heap w' = heap w
    /\ config r' = config r /\ points r' = points r /\ written w' = written w
    /\ (next_handle w' <= S (next_handle w))%nat.
Proof.
  intros (h & Hc & Hlt & Hopen & Hbound & Hnodup) Hcfg.
  unfold ping_turn, newClient, deref, new_handle, Close, log_line.
  rewrite Hc. run_monad.
  destruct (ping tick) as [err |]; cbn.
  - eexists r, _, _. split; [reflexivity |]. cbn.
    split; [exists h; repeat split; assumption |]. repeat split. lia.
  - destruct last as [err |]; cbn.
    + rewrite Hcfg. destruct (NewHTTPClient env (http_config cfg)) as [err' |]; cbn.
      * eexists r, _, _. split; [reflexivity |]. cbn.
        split; [exists h; repeat split; assumption |]. repeat split. lia.
      * eexists _, _, _. split; [reflexivity |]. cbn.
        split; [| repeat split; first [reflexivity | lia]].
        exists (next_handle w). cbn. split; [reflexivity |]. split; [lia |].
        split; [| split].
        -- rewrite elem_of_app, list_elem_of_singleton. intros [Hin | Heq]; [| lia].
           rewrite Forall_forall in Hbound. specialize (Hbound _ Hin). lia.
        -- apply Forall_app. split.
           ++ eapply Forall_impl; [exact Hbound |]. cbn. intros; lia.
           ++ repeat constructor. lia.
        -- apply NoDup_app. split; [exact Hnodup |]. split.
           ++ intros x Hx Hx'. apply list_elem_of_singleton in Hx'. subst.
              contradiction.
           ++ apply NoDup_singleton.
    + eexists r, _, _. split; [reflexivity |]. cbn.
      split; [exists h; repeat split; assumption |]. repeat split. lia.
Qed.

(** X14. Over any sequence of ticks, with any answers of the pings and of the
    client constructor, the health check does not panic; the sender's
    client is always a handle that has not been closed, no handle is closed
    twice, and the batch and the written points are left alone. *)
Theorem ping_loop_keeps_handles_sound
        (ticks : list ping_tick) (r : statsSender) (last : option error)
        (w : world) (cfg : Config) :
  handles_sound r w -> heap w !! config r = Some cfg ->
  exists r' last' w',
    ping_turns env ticks (r, last) w = Ok ((r', last'), w')
    /\ handles_sound r' w'
    /\ points r' = points r /\ written w' = written w
    /\ (next_handle w' <= next_handle w + length ticks)%nat.
Proof.
  revert r last w.
  induction ticks as [| tick ticks IH]; intros r last w Hsound Hcfg.
  - exists r, last, w. cbn. repeat split; try assumption. lia.
  - destruct (ping_turn_sound tick r last w cfg Hsound Hcfg)
      as (r1 & last1 & w1 & Hturn & Hsound1 & Hheap1 & Hcfg1 & Hp1 & Hwr1 & Hnh1).
    rewrite <- Hcfg1, <- Hheap1 in Hcfg.
    destruct (IH r1 last1 w1 Hsound1 Hcfg)
      as (r' & last' & w' & Hrun & Hsound' & Hp' & Hwr' & Hnh').
    exists r', last', w'. cbn [ping_turns].
    rewrite (bind_Ok _ _ _ _ _ Hturn).
    split; [exact Hrun |]. split; [exact Hsound' |].
    split; [congruence |]. split; [congruence |]. cbn [length]. lia.
Qed.

Lemma ping_turn_recovers (tick : ping_tick) (r : statsSender) (last : option error)
      (w : world) (cfg : Config) (h : nat) :
  client r = Some h -> heap w !! config r = Some cfg ->
  NewHTTPClient env (http_config cfg) = None ->
  exists r' last' w' h',
    ping_turn env tick (r, last) w = Ok ((r', last'), w')
    /\ client r' = Some h' /\ heap w' = heap w /\ config r' = config r
    /\ (match ping tick with Some _ => true | None => false end
        = match last' with Some _ => true | None => false end)
    /\ length (closed w')
       = (length (closed w)
          + recoveries (match last with Some _ => true | None => false end) [tick])%nat
    /\ next_handle w'
       = (next_handle w
          + recoveries (match last with Some _ => true | None => false end) [tick])%nat.
Proof.
  intros Hc Hcfg Hnew.
  unfold ping_turn, newClient, deref, new_handle, Close, log_line.
  rewrite Hc. run_monad.
  destruct (ping tick) as [err |]; cbn.
  - eexists r, _, _, h. split; [reflexivity |]. cbn. repeat split; try assumption; lia.
  - destruct last as [err |]; cbn.
    + rewrite Hcfg, Hnew. cbn.
      eexists _, _, _, _. split; [reflexivity |]. cbn.
      rewrite length_app. cbn. repeat split; lia.
    + eexists r, _, _, h. split; [reflexivity |]. cbn.
      repeat split; try assumption; lia.
Qed.

(** X15. With a client constructor that accepts the configuration, the health
    check makes one new client and closes one old client at every tick that
    finds the sink back after at least one failed ping, and at no other
    tick, over any sequence of ticks and whatever the new client's own ping
    answers. *)
Theorem ping_loop_reconnects_once_per_recovery
        (ticks : list ping_tick) (r : statsSender) (last : option error)
        (w : world) (cfg : Config) (h : nat) :
  client r = Some h -> heap w !! config r = Some cfg ->
  NewHTTPClient env (http_config cfg) = None ->
  exists r' last' w',
    ping_turns env ticks (r, last) w = Ok ((r', last'), w')
    /\ length (closed w')
       = (length (closed w)
          + recoveries (match last with Some _ => true | None => false end) ticks)%nat
    /\ next_handle w'
       = (next_handle w
          + recoveries (match last with Some _ => true | None => false end) ticks)%nat.
Proof.
  revert r last w h.
  induction ticks as [| tick ticks IH]; intros r last w h Hc Hcfg Hnew.
  - exists r, last, w. cbn. repeat split; lia.
  - destruct (ping_turn_recovers tick r last w cfg h Hc Hcfg Hnew)
      as (r1 & last1 & w1 & h1 & Hturn & Hc1 & Hheap1 & Hcfg1 & Hdeg & Hcl1 & Hnh1).
    rewrite <- Hcfg1, <- Hheap1 in Hcfg.
    destruct (IH r1 last1 w1 h1 Hc1 Hcfg Hnew) as (r' & last' & w' & Hrun & Hcl' & Hnh').
    exists r', last', w'. cbn [ping_turns].
    rewrite (bind_Ok _ _ _ _ _ Hturn). split; [exact Hrun |].
    rewrite Hcl', Hnh', Hcl1, Hnh1. rewrite <- Hdeg.
    cbn [recoveries].
    destruct (ping tick), last; cbn; split; lia.
Qed.

End HealthMore.

Lemma running_handles_sound : handles_sound samples.sender samples.running.
Proof.
  exists 0%nat. cbn. repeat split; try lia.
  - apply not_elem_of_nil.
  - constructor.
  - constructor.
Defined.

Lemma ping_loop_keeps_handles_sound_witness :
  exists r' last' w',
    runstats.ping_turns samples.env (samples.outage ++ [samples.back])
      (samples.sender, None) samples.running = Ok ((r', last'), w')
    /\ handles_sound r' w'.
Proof.
  destruct (ping_loop_keeps_handles_sound samples.env
              (samples.outage ++ [samples.back]) samples.sender None
              samples.running
              (runstats.defaults samples.env runstats.zero_Config)
              running_handles_sound eq_refl)
    as (r' & last' & w' & Hrun & Hsound & _).
  exists r', last', w'. split; [exact Hrun | exact Hsound].
Defined.

Lemma ping_loop_reconnects_once_per_recovery_witness :
  exists r' last' w',
    runstats.ping_turns samples.env
      (samples.outage ++ [samples.back] ++ samples.outage ++ [samples.back; samples.back])
      (samples.sender, None) samples.running = Ok ((r', last'), w')
    /\ length (runstats.closed w') = 2%nat
    /\ runstats.next_handle w' = 3%nat.
Proof.
  exact (ping_loop_reconnects_once_per_recovery samples.env
           (samples.outage ++ [samples.back] ++ samples.outage
              ++ [samples.back; samples.back])
           samples.sender None samples.running
           (runstats.defaults samples.env runstats.zero_Config) 0%nat
           eq_refl eq_refl eq_refl).
Defined.

(** ** The v2 sender and the published variable *)

(** X16. The v2 [RunCollector] returns nil for every configuration that is
    there: nothing is checked and the sink is not contacted; it resolves
    the configuration in place and starts the collector with the resolved
    interval and the flags negated, and nothing else. *)
Theorem RunCollector_v2_returns_nil
        (hostname : option string) (l : nat) (c : metrics.Config) (w : metrics.world) :
  metrics.heap w !! l = Some c ->
  exists w',
    metrics.RunCollector hostname (Some l) w = Ok (None, w')
    /\ metrics.heap w' = <[l := metrics.defaults hostname c]> (metrics.heap w)
    /\ metrics.spawned w'
       = metrics.spawned w
           ++ [ metrics.GoRun
                  (if metrics.CollectionInterval c =? 0
                   then metrics.defaultCollectionInterval
                   else metrics.CollectionInterval c)
                  (negb (metrics.DisableCpu c)) (negb (metrics.DisableMem c)) ]
    /\ metrics.handed_over w' = metrics.handed_over w.
Proof.
  intros Hl. unfold metrics.RunCollector.
  rewrite (bind_Ok _ _ _ _ _ (init2_non_nil hostname l c w Hl)).
  unfold metrics.newStatsSender, metrics.deref, metrics.go.
  run_monad. rewrite lookup_insert_eq. cbn. rewrite lookup_insert_eq. cbn.
  eexists. split; [reflexivity |]. repeat split.
Qed.

Lemma RunCollector_v2_returns_nil_witness :
  exists w',
    metrics.RunCollector None (Some 0%nat) (samples.world2_with samples.zero_Config2)
    = Ok (None, w')
    /\ metrics.spawned w' = [ metrics.GoRun (collector.seconds 10) true true ].
Proof.
  destruct (RunCollector_v2_returns_nil None 0 samples.zero_Config2
              (samples.world2_with samples.zero_Config2) eq_refl)
    as (w' & Hrun & _ & Hsp & _).
  exists w'. split; [exact Hrun | exact Hsp].
Defined.

(** X17. The package's [init] publishes the render function under the name of
    the program: it panics exactly when that name is already published;
    otherwise the variable found under the name renders points named
    [go_runtime_metrics], the other variables are untouched, and a second
    publication under the name (a second [init] with the same program
    name) panics. *)
Theorem expvar_init_publishes_once (arg0 : string) (vars : gmap string expvar.Func) :
  (expvar.init arg0 vars = None <-> is_Some (vars !! arg0))
  /\ (forall vars',
        expvar.init arg0 vars = Some vars' ->
        (exists f, vars' !! arg0 = Some f
                   /\ forall rt p, f rt = Ok p ->
                                   influxdb.Name p = "go_runtime_metrics"%string)
        /\ (forall name, name <> arg0 -> vars' !! name = vars !! name)
        /\ expvar.init arg0 vars' = None
        /\ forall v, expvar.Publish arg0 v vars' = None).
Proof.
  unfold expvar.init, expvar.Publish. split.
  - destruct (vars !! arg0) as [v |]; split; intros H;
      try reflexivity; try discriminate; eauto.
    destruct H as [v H]. discriminate.
  - intros vars'. destruct (vars !! arg0) as [v |] eqn:Hfree; [discriminate |].
    intros [= <-]. rewrite lookup_insert_eq. split; [| split; [| split]].
    + eexists. split; [reflexivity |].
      intros rt p. unfold influxdb.Metrics, mbind, outcome_bind.
      destruct (collector.CollectStats _ rt); [| discriminate].
      intros [= <-]. reflexivity.
    + intros name Hne. apply lookup_insert_ne. congruence.
    + rewrite lookup_insert_eq. reflexivity.
    + intros v. rewrite lookup_insert_eq. reflexivity.
Qed.

(** ** From [onNewPoint] to the sink *)

Section Pipeline.
Import runstats.

Variable env : Env.

Lemma step_keeps_pipeline (m : move) (s : system) (w : world) :
  pipeline_ready env s w ->
  exists s' w' made,
    step env m s w = Ok (s', w')
    /\ pipeline_ready env s' w'
    /\ in_pipeline s' w' = in_pipeline s w ++ made
    /\ Forall (made_by [m]) made.
Proof.
  intros (batch & h & lg & cfg & Hp & Hc & Hl & Hcfg & Hnew).
  assert (Hready : forall s' w',
             sender s' = sender s -> heap w' = heap w -> pipeline_ready env s' w').
  { intros s' w' Hs Hw. exists batch, h, lg, cfg. rewrite Hs, Hw.
    repeat split; assumption. }
  unfold in_pipeline.
  destruct m as [fields now | | prefer_tick | write].
  - unfold step. destruct (sending s) as [pt |] eqn:Hsend.
    + exists s, w, []. rewrite app_nil_r, Hsend.
      split; [reflexivity |]. split; [apply Hready; reflexivity |].
      split; [reflexivity | constructor].
    + unfold onNewPoint, deref, Println, log_line,
        mbind, M_bind, mret, M_ret, modify, throw.
      rewrite Hcfg, Hl.
      destruct (NewPoint env _ _ _ _) as [err |].
      * eexists _, _, []. split; [reflexivity |].
        split; [apply Hready; reflexivity |]. cbn.
        rewrite !app_nil_r. split; [reflexivity | constructor].
      * eexists _, _, [_]. split; [reflexivity |].
        split; [apply Hready; reflexivity |]. cbn [sender sending option_list].
        unfold delivered. cbn [written]. rewrite !app_nil_r, <- !app_assoc.
        split; [reflexivity |]. constructor; [| constructor].
        exists fields, now. repeat split. left. reflexivity.
  - eexists _, w, []. split; [reflexivity |].
    split; [apply Hready; reflexivity |]. rewrite app_nil_r.
    split; [reflexivity | constructor].
  - assert (Htick : exists s',
               take_tick s w = Ok (s', w) /\ sender s' = sender s
               /\ sending s' = sending s).
    { unfold take_tick, flush_begin. rewrite Hp. run_monad.
      eexists. split; [reflexivity |]. split; reflexivity. }
    assert (Hkeep : forall s',
               sender s' = sender s -> sending s' = sending s ->
               exists s'' w' made,
                 Ok (s', w) = Ok (s'', w')
                 /\ pipeline_ready env s'' w'
                 /\ delivered w' ++ default [] (points (sender s''))
                      ++ option_list (sending s'')
                    = (delivered w ++ default [] (points (sender s))
                         ++ option_list (sending s)) ++ made
                 /\ Forall (made_by [LoopSelects prefer_tick]) made).
    { intros s' Hs Hsend. exists s', w, []. rewrite Hs, Hsend, app_nil_r.
      split; [reflexivity |]. split; [apply Hready; [exact Hs | reflexivity] |].
      split; [reflexivity | constructor]. }
    assert (Hpoint : forall pt,
               sending s = Some pt ->
               exists s'' w' made,
                 Ok (take_point pt s, w) = Ok (s'', w')
                 /\ pipeline_ready env s'' w'
                 /\ delivered w' ++ default [] (points (sender s''))
                      ++ option_list (sending s'')
                    = (delivered w ++ default [] (points (sender s))
                         ++ option_list (sending s)) ++ made
                 /\ Forall (made_by [LoopSelects prefer_tick]) made).
    { intros pt Hsend. exists (take_point pt s), w, [].
      split; [reflexivity |]. split.
      - exists (batch ++ [pt]), h, lg, cfg. cbn. unfold receive. rewrite Hp. cbn.
        repeat split; assumption.
      - cbn. unfold receive. rewrite Hp, Hsend. cbn.
        rewrite !app_nil_r. split; [reflexivity | constructor]. }
    destruct Htick as (s1 & Htick & Hs1 & Hsend1).
    unfold step. destruct (loop_at s).
    + destruct (flush_due s), (sending s) as [pt |] eqn:Hsend.
      * destruct prefer_tick; [rewrite Htick; apply Hkeep; assumption |].
        apply Hpoint. reflexivity.
      * rewrite Htick. apply Hkeep; congruence.
      * apply Hpoint. reflexivity.
      * apply Hkeep; [reflexivity | exact Hsend].
    + apply Hkeep; reflexivity.
  - unfold step. destruct (loop_at s).
    + exists s, w, []. rewrite app_nil_r. split; [reflexivity |].
      split; [apply Hready; reflexivity |]. split; [reflexivity | constructor].
    + unfold flush_end, newBatch, deref, accept_batch, Println, log_line.
      unfold bp_config in Hnew.
      rewrite Hp, Hc, Hl. run_monad. destruct write as [err |]; cbn.
      * eexists _, _, []. split; [reflexivity |]. split.
        -- exists batch, h, lg, cfg. cbn. repeat split; assumption.
        -- cbn. rewrite ?Hp, ?app_nil_r. cbn. split; [reflexivity | constructor].
      * rewrite Hcfg, Hnew. cbn.
        eexists _, _, []. split; [reflexivity |]. split.
        -- exists [], h, lg, cfg. cbn. repeat split; assumption.
        -- unfold delivered. cbn. rewrite ?Hp, fmap_app, concat_app. cbn.
           rewrite ?app_nil_r, <- ?app_assoc.
           split; [reflexivity | constructor].
Qed.

Lemma made_by_weaken (ms ms' : list move) (pt : Point) :
  (forall m, In m ms -> In m ms') -> made_by ms pt -> made_by ms' pt.
Proof.
  intros Hsub (fields & now & Hin & Hrest).
  exists fields, now. split; [apply Hsub, Hin | exact Hrest].
Qed.

(** X18. Over any moves of the Collector, the ticker, the batch loop and the
    sink, the pipeline neither loses, nor repeats, nor reorders a point,
    and does not panic: the points accepted by the sink, then the batch,
    then the point being sent are what was there at the start followed by
    points made from snapshots of the calls of [onNewPoint]. *)
Theorem pipeline_keeps_every_point (ms : list move) (s : system) (w : world) :
  pipeline_ready env s w ->
  exists s' w' made,
    steps env ms s w = Ok (s', w')
    /\ in_pipeline s' w' = in_pipeline s w ++ made
    /\ Forall (made_by ms) made.
Proof.
  revert s w. induction ms as [| m ms IH]; intros s w Hready.
  - exists s, w, []. rewrite app_nil_r. split; [reflexivity |].
    split; [reflexivity | constructor].
  - destruct (step_keeps_pipeline m s w Hready)
      as (s1 & w1 & made1 & Hstep & Hready1 & Hin1 & Hmade1).
    destruct (IH s1 w1 Hready1) as (s' & w' & made' & Hrun & Hin' & Hmade').
    exists s', w', (made1 ++ made'). cbn [steps].
    rewrite (bind_Ok _ _ _ _ _ Hstep). split; [exact Hrun |].
    split; [rewrite Hin', Hin1, app_assoc; reflexivity |].
    apply Forall_app. split.
    + eapply Forall_impl; [exact Hmade1 |]. intros pt.
      apply made_by_weaken. intros m' [<- | []]. left. reflexivity.
    + eapply Forall_impl; [exact Hmade' |]. intros pt.
      apply made_by_weaken. intros m' Hm'. right. exact Hm'.
Qed.

End Pipeline.

Lemma started_pipeline_ready :
  pipeline_ready samples.env (runstats.started samples.sender) samples.running.
Proof.
  exists [], 0%nat, runstats.DefaultLogger,
    (runstats.defaults samples.env runstats.zero_Config).
  repeat split.
Defined.

Lemma pipeline_keeps_every_point_witness :
  exists s' w' made,
    runstats.steps samples.env
      (samples.into_flush ++ [runstats.SinkAnswers None])
      (runstats.started samples.sender) samples.running = Ok (s', w')
    /\ in_pipeline s' w'
       = in_pipeline (runstats.started samples.sender) samples.running ++ made
    /\ Forall (made_by (samples.into_flush ++ [runstats.SinkAnswers None])) made.
Proof.
  exact (pipeline_keeps_every_point samples.env
           (samples.into_flush ++ [runstats.SinkAnswers None])
           (runstats.started samples.sender) samples.running
           started_pipeline_ready).
Defined.
